(** * Rodovid backend: date resolver, consistency validators and graph store

  A shallow embedding of [backend/utils/time_resolver.py],
  [backend/validators.py], [backend/neo4j_db.py] and the handlers of
  [backend/main.py] that the verified properties talk about.

  Conventions.
  - A Python [str] that is inspected character by character (the date
    texts) is a list of Unicode code points, [pystr].  Identifiers and
    opaque blobs, which the code only stores and compares, are Rocq
    strings (their UTF-8 bytes).
  - A Python [int] is a [Z]; [None] is [None] of an option type.
  - A Python call that can raise is a function into [option]; [None]
    stands for the raised exception. *)

From Stdlib Require Import ZArith NArith String Ascii List Bool Lia DecimalString.
From stdpp Require Import gmap strings list.

(* ===================================================================== *)
(** * Python strings as code points *)
(* ===================================================================== *)

Module PyStr.

Definition char := N.
Abbreviation pystr := (list N).

(** UTF-8 decoding of a Rocq string literal, so that the patterns and
    messages below can be written as the source writes them. *)
Fixpoint utf8_decode (bs : list N) : pystr :=
  match bs with
  | [] => []
  | b :: r =>
    if (b <? 0x80)%N then b :: utf8_decode r
    else if (b <? 0xE0)%N then
      match r with
      | b1 :: r' => ((b - 0xC0) * 0x40 + (b1 - 0x80))%N :: utf8_decode r'
      | _ => []
      end
    else if (b <? 0xF0)%N then
      match r with
      | b1 :: b2 :: r' =>
        ((b - 0xE0) * 0x1000 + (b1 - 0x80) * 0x40 + (b2 - 0x80))%N :: utf8_decode r'
      | _ => []
      end
    else
      match r with
      | b1 :: b2 :: b3 :: r' =>
        ((b - 0xF0) * 0x40000 + (b1 - 0x80) * 0x1000
         + (b2 - 0x80) * 0x40 + (b3 - 0x80))%N :: utf8_decode r'
      | _ => []
      end
  end.

Definition py (s : string) : pystr :=
  utf8_decode (map N_of_ascii (list_ascii_of_string s)).

(** [str(n)] for an int. *)
Definition str_of_int (n : Z) : pystr :=
  py (NilZero.string_of_int (Z.to_int n)).

(** [Py_UNICODE_ISSPACE]: the characters [str.strip()] removes and the
    class [\s] of a str pattern (CPython 3.11, Unicode 14). *)
Definition unicode_space : list char :=
  [0x9; 0xA; 0xB; 0xC; 0xD; 0x1C; 0x1D; 0x1E; 0x1F; 0x20; 0x85; 0xA0;
   0x1680; 0x2000; 0x2001; 0x2002; 0x2003; 0x2004; 0x2005; 0x2006;
   0x2007; 0x2008; 0x2009; 0x200A; 0x2028; 0x2029; 0x202F; 0x205F;
   0x3000]%N.

Definition isspace (c : char) : bool := existsb (N.eqb c) unicode_space.

(** The code points of the digit zero of every Unicode decimal system
    (general category Nd); the digits 0..9 of a system are contiguous. *)
Definition decimal_zeros : list char :=
  [0x30; 0x660; 0x6F0; 0x7C0; 0x966; 0x9E6; 0xA66; 0xAE6; 0xB66; 0xBE6;
   0xC66; 0xCE6; 0xD66; 0xDE6; 0xE50; 0xED0; 0xF20; 0x1040; 0x1090;
   0x17E0; 0x1810; 0x1946; 0x19D0; 0x1A80; 0x1A90; 0x1B50; 0x1BB0;
   0x1C40; 0x1C50; 0xA620; 0xA8D0; 0xA900; 0xA9D0; 0xA9F0; 0xAA50;
   0xABF0; 0xFF10; 0x104A0; 0x10D30; 0x11066; 0x110F0; 0x11136;
   0x111D0; 0x112F0; 0x11450; 0x114D0; 0x11650; 0x116C0; 0x11730;
   0x118E0; 0x11950; 0x11C50; 0x11D50; 0x11DA0; 0x16A60; 0x16AC0;
   0x16B50; 0x1D7CE; 0x1D7D8; 0x1D7E2; 0x1D7EC; 0x1D7F6; 0x1E140;
   0x1E2F0; 0x1E950; 0x1FBF0]%N.

(** [Py_UNICODE_TODECIMAL]: the value of a decimal digit, if it is one.
    It decides both [\d] and what [int()] accepts as a digit. *)
Definition to_decimal (c : char) : option Z :=
  match find (fun z => (z <=? c)%N && (c <? z + 10)%N) decimal_zeros with
  | Some z => Some (Z.of_N (c - z))
  | None => None
  end.

Definition isdecimal (c : char) : bool :=
  match to_decimal c with Some _ => true | None => false end.

(** [str.strip()] *)
Fixpoint lstrip (s : pystr) : pystr :=
  match s with
  | c :: r => if isspace c then lstrip r else s
  | [] => []
  end.

Definition rstrip (s : pystr) : pystr := rev (lstrip (rev s)).

Definition strip (s : pystr) : pystr := rstrip (lstrip s).

(** [int(s)] on a string of decimal digits.  [None] is [ValueError]:
    raised on the empty string and on any character that is not a
    decimal digit (signs, blanks and underscores, which [int()] also
    understands, never reach it from the resolver). *)
Fixpoint int_acc (acc : Z) (s : pystr) : option Z :=
  match s with
  | [] => Some acc
  | c :: r =>
    match to_decimal c with
    | Some d => int_acc (acc * 10 + d) r
    | None => None
    end
  end.

Definition int_digits (s : pystr) : option Z :=
  match s with
  | [] => None
  | _ => int_acc 0 s
  end.

End PyStr.

(* ===================================================================== *)
(** * The fragment of Python's [re] used by the resolver *)
(* ===================================================================== *)

Module Regex.
Import PyStr.

(** Single-character items. *)
Inductive cls : Type :=
| CLit (c : char)            (* a literal character *)
| CDigit                     (* \d *)
| CSpace                     (* \s *)
| COneOf (cs : list char).   (* [...] *)

(** Patterns.  Every starred item of the resolver's patterns is a
    single-character class, so [Star] takes a class. *)
Inductive re : Type :=
| Eps
| Chr (k : cls)
| Star (k : cls)             (* k*, greedy *)
| Seq (a b : re)
| Alt (a b : re)             (* a|b, left first *)
| Opt (a : re)               (* a?, greedy *)
| Group (n : nat) (a : re)   (* capturing group number n *)
| Eos.                       (* $ *)

(** Characters that a pattern letter also matches under
    [re.IGNORECASE] (str patterns; CPython 3.11), for the letters that
    occur in the resolver's patterns. *)
Definition ignorecase_table : list (char * list char) :=
  [ (0x61, [0x41]); (0x63, [0x43]); (0x65, [0x45]);
    (0x69, [0x49; 0x130; 0x131]); (0x6B, [0x4B; 0x212A]);
    (0x6D, [0x4D]); (0x6E, [0x4E]); (0x6F, [0x4F]); (0x70, [0x50]);
    (0x72, [0x52]); (0x74, [0x54]); (0x75, [0x55]); (0x77, [0x57]);
    (0x79, [0x59]);
    (0x431, [0x411]); (0x432, [0x412; 0x1C80]); (0x434, [0x414; 0x1C81]);
    (0x435, [0x415]); (0x437, [0x417]); (0x438, [0x418]);
    (0x43A, [0x41A]); (0x43B, [0x41B]); (0x43C, [0x41C]);
    (0x43D, [0x41D]); (0x43E, [0x41E; 0x1C82]); (0x43F, [0x41F]);
    (0x440, [0x420]); (0x44C, [0x42C]); (0x44F, [0x42F]);
    (0x456, [0x406]) ]%N.

Definition other_cases (c : char) : list char :=
  match find (fun e => (fst e =? c)%N) ignorecase_table with
  | Some e => snd e
  | None => []
  end.

Definition cls_match (k : cls) (x : char) : bool :=
  match k with
  | CLit c => (x =? c)%N || existsb (N.eqb x) (other_cases c)
  | CDigit => isdecimal x
  | CSpace => isspace x
  | COneOf cs => existsb (N.eqb x) cs
  end.

Abbreviation captures := (gmap nat (list N)).

(** Backtracking matcher in continuation-passing style: [k] receives
    the rest of the text and the groups captured so far. *)
Fixpoint rmatch (r : re) (s : pystr) (caps : captures)
              (k : pystr -> captures -> option captures) : option captures :=
  match r with
  | Eps => k s caps
  | Chr c =>
    match s with
    | x :: s' => if cls_match c x then k s' caps else None
    | [] => None
    end
  | Star c =>
    (fix star (s : pystr) : option captures :=
       match s with
       | x :: s' =>
         if cls_match c x then
           match star s' with
           | Some res => Some res
           | None => k s caps
           end
         else k s caps
       | [] => k s caps
       end) s
  | Seq a b => rmatch a s caps (fun s' caps' => rmatch b s' caps' k)
  | Alt a b =>
    match rmatch a s caps k with
    | Some res => Some res
    | None => rmatch b s caps k
    end
  | Opt a =>
    match rmatch a s caps k with
    | Some res => Some res
    | None => k s caps
    end
  | Group n a =>
    rmatch a s caps
      (fun s' caps' => k s' (<[n := take (length s - length s') s]> caps'))
  | Eos =>
    (* end of the text, or just before its final newline *)
    match s with
    | [] => k s caps
    | [0xA%N] => k s caps
    | _ => None
    end
  end.

(** [pattern.match(text)]: anchored at the start of the text (which
    makes a leading [^] redundant). *)
Definition re_match (r : re) (text : pystr) : option captures :=
  rmatch r text ∅ (fun _ caps => Some caps).

(** [pattern.search(text)]: the leftmost position with a match. *)
Fixpoint re_search (r : re) (text : pystr) : option captures :=
  match re_match r text with
  | Some caps => Some caps
  | None =>
    match text with
    | _ :: rest => re_search r rest
    | [] => None
    end
  end.

(** Pattern builders. *)
Fixpoint seqs (rs : list re) : re :=
  match rs with
  | [] => Eps
  | [r] => r
  | r :: rest => Seq r (seqs rest)
  end.

Fixpoint alts (rs : list re) : re :=
  match rs with
  | [] => Eps
  | [r] => r
  | r :: rest => Alt r (alts rest)
  end.

Definition lit (s : string) : re := seqs (map (fun c => Chr (CLit c)) (py s)).
Definition digit : re := Chr CDigit.
Definition d4 : re := Seq digit (Seq digit (Seq digit digit)).  (* \d{4}   *)
Definition d12 : re := Seq digit (Opt digit).                   (* \d{1,2} *)
Definition ws : re := Star CSpace.                              (* \s*     *)
Definition ws1 : re := Seq (Chr CSpace) (Star CSpace).          (* \s+     *)

(** Two syntactic facts about a pattern, used to show that converting
    its groups to integers cannot fail: every group is [(\d{4})], and the
    groups that every successful match has set. *)
Fixpoint digit_groups (r : re) : Prop :=
  match r with
  | Seq a b | Alt a b => digit_groups a /\ digit_groups b
  | Opt a => digit_groups a
  | Group _ a => a = d4
  | _ => True
  end.

Fixpoint groups_set (r : re) : list nat :=
  match r with
  | Seq a b => groups_set a ++ groups_set b
  | Group n _ => [n]
  | _ => []
  end.

(** All captured texts are decimal numerals. *)
Definition numeric (caps : captures) : Prop :=
  forall n t, caps !! n = Some t -> is_Some (int_digits t).

End Regex.

(* ===================================================================== *)
(** * utils/time_resolver.py *)
(* ===================================================================== *)

Module TimeResolver.
Import PyStr Regex.
Local Open Scope Z_scope.

(** [ResolvedDate] (a dataclass: equality compares all six fields). *)
Record ResolvedDate : Type := mkResolvedDate {
  year : option Z;
  original : pystr;
  is_approximate : bool;
  range_start : option Z;
  range_end : option Z;
  confidence : string
}.

(** [Union[str, int, None]] *)
Inductive date_input : Type :=
| DNone
| DInt (n : Z)
| DStr (s : pystr).

(** [TimeResolver.PATTERNS], compiled with [re.IGNORECASE]. *)
Definition sep : re := Chr (COneOf (py "-./")).

(* r"^(\d{4})(?:[-./]\d{1,2}[-./]\d{1,2})?$" *)
Definition pat_exact : re :=
  seqs [Group 1 d4; Opt (seqs [sep; d12; sep; d12]); Eos].

(* r"^\d{1,2}[-./]\d{1,2}[-./](\d{4})$" *)
Definition pat_exact_euro : re :=
  seqs [d12; sep; d12; sep; Group 1 d4; Eos].

(* r"^(?:c\.?\s*|~|≈|circa\s+|близько\s+|приблизно\s+|біля\s+)(\d{4})$" *)
Definition pat_approximate : re :=
  seqs [alts [seqs [lit "c"; Opt (lit "."); ws];
              lit "~";
              lit "≈";
              Seq (lit "circa") ws1;
              Seq (lit "близько") ws1;
              Seq (lit "приблизно") ws1;
              Seq (lit "біля") ws1];
        Group 1 d4; Eos].

(* r"^(\d{4})(?:\.{2}|[-–—])(\d{4})$" *)
Definition pat_range : re :=
  seqs [Group 1 d4;
        Alt (Seq (lit ".") (lit ".")) (Chr (COneOf (py "-–—")));
        Group 2 d4; Eos].

(* ^(?: \? | unknown | невідомо | empty | не\s*відомо | \s* )$
   (the six alternatives, written here with blanks between them) *)
Definition pat_unknown : re :=
  seqs [alts [lit "?";
              lit "unknown";
              lit "невідомо";
              lit "empty";
              seqs [lit "не"; ws; lit "відомо"];
              ws];
        Eos].

(* r"(\d{4})" *)
Definition pat_year_in_text : re := Group 1 d4.

(** [int(match.group(n))]; [None] when the conversion raises. *)
Definition group_int (mt : captures) (n : nat) : option Z :=
  match mt !! n with
  | Some t => int_digits t
  | None => None
  end.

(** [TimeResolver.resolve].  The result is [None] exactly when the
    Python method raises. *)
Definition resolve (date_input : date_input) : option ResolvedDate :=
  match date_input with
  | DNone => Some (mkResolvedDate None [] false None None "unknown")
  | DInt n => Some (mkResolvedDate (Some n) (str_of_int n) false None None "exact")
  | DStr s =>
    let text := strip s in
    match text with
    | [] => Some (mkResolvedDate None [] false None None "unknown")
    | _ =>
    match re_match pat_unknown text with
    | Some _ => Some (mkResolvedDate None text false None None "unknown")
    | None =>
    match re_match pat_exact text with
    | Some mt =>
      year ← group_int mt 1;
      Some (mkResolvedDate (Some year) text false None None "exact")
    | None =>
    match re_match pat_exact_euro text with
    | Some mt =>
      year ← group_int mt 1;
      Some (mkResolvedDate (Some year) text false None None "exact")
    | None =>
    match re_match pat_approximate text with
    | Some mt =>
      year ← group_int mt 1;
      Some (mkResolvedDate (Some year) text true None None "approximate")
    | None =>
    match re_match pat_range text with
    | Some mt =>
      start ← group_int mt 1;
      end_ ← group_int mt 2;
      let middle := (start + end_) / 2 in
      Some (mkResolvedDate (Some middle) text true (Some start) (Some end_) "range")
    | None =>
    match re_search pat_year_in_text text with
    | Some mt =>
      year ← group_int mt 1;
      if (1000 <=? year) && (year <=? 2100)
      then Some (mkResolvedDate (Some year) text true None None "approximate")
      else Some (mkResolvedDate None text false None None "unknown")
    | None => Some (mkResolvedDate None text false None None "unknown")
    end end end end end end
    end
  end.

(** [resolve_year]: only the year, for the validators. *)
Definition resolve_year (date_input : date_input) : option (option Z) :=
  r ← resolve date_input; Some (year r).

(** [can_validate] *)
Definition can_validate (date_input : date_input) : option bool :=
  r ← resolve date_input;
  Some (match year r with Some _ => true | None => false end).

(** The textual forms the resolver recognizes, as predicates on the
    stripped text. *)
Definition recognized (text : pystr) : bool :=
  match text with [] => true | _ => false end
  || bool_decide (is_Some (re_match pat_unknown text))
  || bool_decide (is_Some (re_match pat_exact text))
  || bool_decide (is_Some (re_match pat_exact_euro text))
  || bool_decide (is_Some (re_match pat_approximate text))
  || bool_decide (is_Some (re_match pat_range text))
  || match re_search pat_year_in_text text with
     | Some mt =>
       match group_int mt 1 with
       | Some y => (1000 <=? y) && (y <=? 2100)
       | None => false
       end
     | None => false
     end.

(** An input that has none of the recognized forms: a text (integers and
    [None] are always understood) whose stripped form fits no pattern. *)
Definition unrecognized (x : date_input) : bool :=
  match x with
  | DStr s => negb (recognized (strip s))
  | _ => false
  end.

End TimeResolver.

(* ===================================================================== *)
(** * validators.py *)
(* ===================================================================== *)

Module Validators.
Import PyStr TimeResolver.
Local Open Scope Z_scope.

Inductive ValidationLevel : Type :=
| ERROR      (* blocks the operation *)
| WARNING    (* advisory *)
| SKIPPED.   (* not evaluated: unknown date *)

Definition level_eqb (a b : ValidationLevel) : bool :=
  match a, b with
  | ERROR, ERROR | WARNING, WARNING | SKIPPED, SKIPPED => true
  | _, _ => false
  end.

Record ValidationResult : Type := mkValidationResult {
  valid : bool;
  level : ValidationLevel;
  code : string;
  message : pystr
}.

(** Class constants of [FamilyValidator]. *)
Definition MIN_MARRIAGE_AGE : Z := 14.
Definition MIN_PARENT_AGE : Z := 10.
Definition MAX_MOTHER_AGE : Z := 60.
Definition MAX_FATHER_POSTHUMOUS : Z := 1.
Definition MAX_HUMAN_AGE : Z := 130.

(** [str(x)] of a raw date argument inside an f-string. *)
Definition fmt (x : date_input) : pystr :=
  match x with
  | DNone => py "None"
  | DInt n => str_of_int n
  | DStr s => s
  end.

(** [self._resolve] *)
Definition _resolve (date_input : date_input) : option (option Z) :=
  resolve_year date_input.

(** [[r for r in results if r.level == ValidationLevel.ERROR]] *)
Definition errors (results : list ValidationResult) : list ValidationResult :=
  filter (fun r => level_eqb (level r) ERROR = true) results.

Definition has_level (l : ValidationLevel) (results : list ValidationResult) : bool :=
  existsb (fun r => level_eqb (level r) l) results.

Section FamilyValidator.

(** [CURRENT_YEAR = datetime.now().year], fixed when the class is created. *)
Variable CURRENT_YEAR : Z.

(** T1 / Z3: [validate_birth_death] *)
Definition validate_birth_death (birth_year death_year : date_input)
  : option (list ValidationResult) :=
  let results := [] in
  birth ← _resolve birth_year;
  death ← _resolve death_year;
  match birth, death with
  | None, None => Some results
  | _, _ =>
    let results :=
      match birth, death with
      | Some birth, Some death =>
        let results :=
          if death <? birth then
            results ++ [mkValidationResult false ERROR "T1_DEATH_BEFORE_BIRTH"
              (py "Дата смерті (" ++ fmt death_year
               ++ py ") раніше народження (" ++ fmt birth_year ++ py ")")]
          else results in
        let age := death - birth in
        if age >? MAX_HUMAN_AGE then
          results ++ [mkValidationResult true WARNING "Z3_UNREALISTIC_AGE"
            (py "Вік " ++ str_of_int age
             ++ py " років перевищує реалістичний максимум ("
             ++ str_of_int MAX_HUMAN_AGE ++ py ")")]
        else results
      | _, _ => results
      end in
    let results :=
      match birth, death with
      | Some birth, None =>
        let age := CURRENT_YEAR - birth in
        if age >? MAX_HUMAN_AGE then
          results ++ [mkValidationResult true WARNING "Z3_IMMORTAL"
            (py "Особа народжена " ++ fmt birth_year ++ py " ("
             ++ str_of_int age ++ py " років тому) і досі жива?")]
        else results
      | _, _ => results
      end in
    Some results
  end.

(** T2-T4, B1, B2: [validate_parent_child_dates] *)
Definition validate_parent_child_dates
    (parent_birth parent_death child_birth : date_input)
    (parent_gender : option string) : option (list ValidationResult) :=
  let results := [] in
  p_birth ← _resolve parent_birth;
  p_death ← _resolve parent_death;
  c_birth ← _resolve child_birth;
  match p_birth, c_birth with
  | None, _ | _, None =>
    Some (results ++ [mkValidationResult true SKIPPED "T_SKIPPED"
            (py "Дати невідомі - валідація пропущена")])
  | Some p_birth, Some c_birth =>
    let parent_age_at_birth := c_birth - p_birth in
    if parent_age_at_birth <=? 0 then
      Some (results ++ [mkValidationResult false ERROR "T2_PARENT_YOUNGER"
              (py "Батько/мати народився пізніше за дитину")])
    else
      let results :=
        if parent_age_at_birth <? MIN_PARENT_AGE then
          results ++ [mkValidationResult false ERROR "B1_PARENT_TOO_YOUNG"
            (py "Батько/мати мав(ла) " ++ str_of_int parent_age_at_birth
             ++ py " років при народженні дитини")]
        else results in
      let results :=
        if bool_decide (parent_gender = Some "F"%string)
           && (parent_age_at_birth >? MAX_MOTHER_AGE) then
          results ++ [mkValidationResult true WARNING "B2_MOTHER_TOO_OLD"
            (py "Матері було " ++ str_of_int parent_age_at_birth
             ++ py " років при народженні")]
        else results in
      let results :=
        match p_death with
        | Some p_death =>
          let years_after_death := c_birth - p_death in
          if bool_decide (parent_gender = Some "F"%string)
             && (years_after_death >? 0) then
            results ++ [mkValidationResult false ERROR "T3_MOTHER_GHOST"
              (py "Дитина народилася через " ++ str_of_int years_after_death
               ++ py " років після смерті матері")]
          else if bool_decide (parent_gender = Some "M"%string)
                  && (years_after_death >? MAX_FATHER_POSTHUMOUS) then
            results ++ [mkValidationResult true WARNING "T4_FATHER_GHOST"
              (py "Дитина народилася через " ++ str_of_int years_after_death
               ++ py " років після смерті батька")]
          else results
        | None => results
        end in
      Some results
  end.

(** T5, T6, Z1: [validate_marriage_dates] *)
Definition validate_marriage_dates
    (person_birth person_death marriage_year divorce_year : date_input)
  : option (list ValidationResult) :=
  let results := [] in
  birth ← _resolve person_birth;
  death ← _resolve person_death;
  marriage ← _resolve marriage_year;
  divorce ← _resolve divorce_year;
  match marriage with
  | None => Some results
  | Some marriage =>
    let results :=
      match birth with
      | Some birth =>
        let age_at_marriage := marriage - birth in
        if age_at_marriage <? MIN_MARRIAGE_AGE then
          let level := if age_at_marriage <? 10 then ERROR else WARNING in
          results ++ [mkValidationResult (level_eqb level WARNING) level
            "T5_CHILD_MARRIAGE"
            (py "Шлюб у віці " ++ str_of_int age_at_marriage ++ py " років")]
        else results
      | None => results
      end in
    let results :=
      match divorce with
      | Some divorce =>
        if divorce <? marriage then
          results ++ [mkValidationResult false ERROR "T6_DIVORCE_BEFORE_MARRIAGE"
            (py "Розлучення (" ++ fmt divorce_year ++ py ") раніше шлюбу ("
             ++ fmt marriage_year ++ py ")")]
        else results
      | None => results
      end in
    let results :=
      match death with
      | Some death =>
        if marriage >? death then
          results ++ [mkValidationResult false ERROR "Z1_MARRIAGE_AFTER_DEATH"
            (py "Шлюб (" ++ fmt marriage_year ++ py ") після смерті ("
             ++ fmt person_death ++ py ")")]
        else results
      | None => results
      end in
    Some results
  end.

End FamilyValidator.

End Validators.

(* ===================================================================== *)
(** * The property graph behind [neo4j_db.py] *)
(* ===================================================================== *)

Module Graph.
Local Open Scope string_scope.

(** Property values.  [VTime t] is an instant, in seconds: both the value
    of Cypher's [datetime()] and the ISO-8601 text that
    [datetime.isoformat()] produces for it. *)
Inductive value : Type :=
| VNull
| VBool (b : bool)
| VInt (n : Z)
| VStr (s : string)
| VTime (t : Z).

#[global] Instance value_eq_dec : EqDecision value.
Proof. solve_decision. Defined.

(** A property bag, and a Python dict with string keys. *)
Abbreviation props := (gmap string value).
Abbreviation dict := (gmap string value).

Record node : Type := mkNode {
  nid : nat;                 (* the store's internal identity *)
  nlabel : string;
  nprops : props
}.

Record rel : Type := mkRel {
  rid : nat;
  rsrc : nat;
  rtype : string;
  rdst : nat;
  rprops : props
}.

Record graph : Type := mkGraph {
  nodes : list node;
  rels : list rel;
  next_id : nat
}.

Definition empty_graph : graph := mkGraph [] [] 0.

(** [x.k]: a missing property reads as null. *)
Definition prop (m : props) (k : string) : value := default VNull (m !! k).

(** [SET x.k = v]: setting null removes the property. *)
Definition set_prop (k : string) (v : value) (m : props) : props :=
  match v with
  | VNull => delete k m
  | _ => <[k := v]> m
  end.

Definition set_props (kvs : list (string * value)) (m : props) : props :=
  fold_left (fun m kv => set_prop (fst kv) (snd kv) m) kvs m.

Definition ostr (o : option string) : value :=
  match o with Some s => VStr s | None => VNull end.

Definition oint (o : option Z) : value :=
  match o with Some n => VInt n | None => VNull end.

(** Equality of a property with a query parameter; null equals nothing. *)
Definition prop_is (m : props) (k : string) (v : value) : bool :=
  match v with
  | VNull => false
  | _ => bool_decide (prop m k = v)
  end.

(** The node pattern [(x:Label {k1: v1, ...})]. *)
Definition node_is (label : string) (conds : list (string * value)) (n : node) : bool :=
  bool_decide (nlabel n = label)
  && forallb (fun kv => prop_is (nprops n) (fst kv) (snd kv)) conds.

Definition match_nodes (g : graph) (label : string) (conds : list (string * value))
  : list node :=
  List.filter (node_is label conds) (nodes g).

(** The relationship pattern [(a)-[:T]->(b)] between two bound nodes. *)
Definition rel_is (src : nat) (ty : string) (dst : nat) (r : rel) : bool :=
  bool_decide (rsrc r = src) && bool_decide (rtype r = ty)
  && bool_decide (rdst r = dst).

Definition has_rel (g : graph) (a : node) (ty : string) (b : node) : bool :=
  existsb (rel_is (nid a) ty (nid b)) (rels g).

(** Relationships of type [ty] leaving / entering a node. *)
Definition out_rels (g : graph) (a : node) (ty : string) : list rel :=
  List.filter (fun r => bool_decide (rsrc r = nid a) && bool_decide (rtype r = ty))
              (rels g).

Definition in_rels (g : graph) (ty : string) (b : node) : list rel :=
  List.filter (fun r => bool_decide (rdst r = nid b) && bool_decide (rtype r = ty))
              (rels g).

Definition node_by_nid (g : graph) (i : nat) : option node :=
  find (fun n => bool_decide (nid n = i)) (nodes g).

(** [CREATE (x:Label {...})]; null-valued entries are not stored. *)
Definition create_node (g : graph) (label : string) (kvs : list (string * value))
  : graph * node :=
  let n := mkNode (next_id g) label (set_props kvs ∅) in
  (mkGraph (nodes g ++ [n]) (rels g) (S (next_id g)), n).

(** [CREATE (a)-[:T {...}]->(b)] *)
Definition create_rel (g : graph) (src : nat) (ty : string) (dst : nat)
           (kvs : list (string * value)) : graph * rel :=
  let r := mkRel (next_id g) src ty dst (set_props kvs ∅) in
  (mkGraph (nodes g) (rels g ++ [r]) (S (next_id g)), r).

(** [MERGE (a)-[r:T {...}]->(b)]: every existing relationship that fits
    the pattern, or else a new one. *)
Definition merge_rel (g : graph) (src : nat) (ty : string) (dst : nat)
           (kvs : list (string * value)) : graph * list nat :=
  let fits r :=
    rel_is src ty dst r
    && forallb (fun kv => prop_is (rprops r) (fst kv) (snd kv)) kvs in
  match List.filter fits (rels g) with
  | [] => let '(g', r) := create_rel g src ty dst kvs in (g', [rid r])
  | found => (g, map rid found)
  end.

(** [SET r.k = v, ...] on the relationship with a given identity. *)
Definition set_rel_props (g : graph) (i : nat) (kvs : list (string * value)) : graph :=
  mkGraph (nodes g)
          (map (fun r => if bool_decide (rid r = i)
                         then mkRel (rid r) (rsrc r) (rtype r) (rdst r)
                                    (set_props kvs (rprops r))
                         else r) (rels g))
          (next_id g).

(** [SET n.k = v, ...] on the node with a given identity. *)
Definition set_node_props (g : graph) (i : nat) (kvs : list (string * value)) : graph :=
  mkGraph (map (fun n => if bool_decide (nid n = i)
                         then mkNode (nid n) (nlabel n) (set_props kvs (nprops n))
                         else n) (nodes g))
          (rels g)
          (next_id g).

(** [DELETE r] for the relationships with the given identities. *)
Definition delete_rels (g : graph) (ids : list nat) : graph :=
  mkGraph (nodes g)
          (List.filter (fun r => negb (bool_decide (rid r ∈ ids))) (rels g))
          (next_id g).

(** [DETACH DELETE n] for the nodes with the given identities: the nodes
    go, and with them every relationship that starts or ends there. *)
Definition detach_delete (g : graph) (ids : list nat) : graph :=
  mkGraph (List.filter (fun n => negb (bool_decide (nid n ∈ ids))) (nodes g))
          (List.filter (fun r => negb (bool_decide (rsrc r ∈ ids))
                                 && negb (bool_decide (rdst r ∈ ids))) (rels g))
          (next_id g).

(** Relationships of type [ty] between two nodes, in either direction. *)
Definition between (g : graph) (ty : string) (a b : nat) : list rel :=
  List.filter (fun r => bool_decide (rtype r = ty)
                        && ((bool_decide (rsrc r = a) && bool_decide (rdst r = b))
                            || (bool_decide (rsrc r = b) && bool_decide (rdst r = a))))
              (rels g).

(** The store hands out identities from a counter: those in use are
    below it. *)
Definition fresh_ids (g : graph) : Prop :=
  forall r, In r (rels g) -> rid r < next_id g.

(** [result.single()]: the first record, if there is one. *)
Definition single {A : Type} (records : list A) : option A := head records.

End Graph.

(* ===================================================================== *)
(** * neo4j_db.py *)
(* ===================================================================== *)

Module Neo4jDB.
Import Graph.
Local Open Scope string_scope.
Local Open Scope list_scope.

(** ** Enumerations *)

Inductive MarriageStatus : Type := MARRIED | DIVORCED | WIDOWED.

Definition MarriageStatus_value (s : MarriageStatus) : string :=
  match s with
  | MARRIED => "married"
  | DIVORCED => "divorced"
  | WIDOWED => "widowed"
  end.

Inductive MarriageType : Type := CIVIL | CHURCH | HISTORICAL.

Definition MarriageType_value (t : MarriageType) : string :=
  match t with
  | CIVIL => "civil"
  | CHURCH => "church"
  | HISTORICAL => "historical"
  end.

Inductive SiblingType : Type := FULL | HALF.

Definition SiblingType_value (t : SiblingType) : string :=
  match t with
  | FULL => "full"
  | HALF => "half"
  end.

(** ** Query fragments shared by the methods *)

(** [(a)-[:T]->(x:Label {...})]: one row per relationship. *)
Definition targets_of (g : graph) (a : node) (ty : string)
           (label : string) (conds : list (string * value)) : list node :=
  r ← out_rels g a ty;
  n ← option_list (node_by_nid g (rdst r));
  if node_is label conds n then [n] else [].

(** [(x:Label)-[:T]->(b)]: one row per relationship. *)
Definition sources_of (g : graph) (label : string) (ty : string) (b : node)
  : list node :=
  r ← in_rels g ty b;
  n ← option_list (node_by_nid g (rsrc r));
  if node_is label [] n then [n] else [].

(** [MERGE] of one relationship per row, rows taken in order. *)
Definition merge_rows {A : Type} (g : graph) (rows : list A)
           (src dst : A -> nat) (ty : string) (kvs : list (string * value))
  : graph * list (A * nat) :=
  fold_left
    (fun st row =>
       let '(g', found) := merge_rel (fst st) (src row) ty (dst row) kvs in
       (g', snd st ++ map (fun r => (row, r)) found))
    rows (g, []).

(** [p.owner_id = $user_id OR p.user_id = $user_id]: the ownership
    fields of the older storage format. *)
Definition legacy_owned (user_id : string) (p : node) : bool :=
  prop_is (nprops p) "owner_id" (VStr user_id)
  || prop_is (nprops p) "user_id" (VStr user_id).

(** ** Users *)

Definition create_user (g : graph) (now : Z) (user_id public_key : string)
           (encrypted_private_key_blob recovery_salt email_hash : option string)
  : graph * option dict :=
  let '(g', u) :=
    create_node g "User"
      [("id", VStr user_id);
       ("public_key", VStr public_key);
       ("encrypted_private_key_blob", ostr encrypted_private_key_blob);
       ("recovery_salt", ostr recovery_salt);
       ("email_hash", ostr email_hash);
       ("created_at", VTime now)] in
  (g', Some (nprops u)).

Definition get_user (g : graph) (user_id : string) : option dict :=
  nprops <$> single (match_nodes g "User" [("id", VStr user_id)]).

(** ** Persons *)

(** The keyword arguments of [create_person]. *)
Record person_fields : Type := mkPersonFields {
  name_blob : option string;
  birth_date_blob : option string;
  death_date_blob : option string;
  birth_place_blob : option string;
  death_place_blob : option string;
  private_notes_blob : option string;
  shared_notes_blob : option string;
  gender : option string;
  is_root : bool;
  birth_year_approx : option Z;
  death_year_approx : option Z
}.

Definition person_blobs (f : person_fields) (now : Z) : list (string * value) :=
  [("name_blob", ostr (name_blob f));
   ("birth_date_blob", ostr (birth_date_blob f));
   ("death_date_blob", ostr (death_date_blob f));
   ("birth_place_blob", ostr (birth_place_blob f));
   ("death_place_blob", ostr (death_place_blob f));
   ("private_notes_blob", ostr (private_notes_blob f));
   ("shared_notes_blob", ostr (shared_notes_blob f));
   ("gender", ostr (gender f));
   ("is_root", VBool (is_root f));
   ("birth_year_approx", oint (birth_year_approx f));
   ("death_year_approx", oint (death_year_approx f));
   ("is_deleted", VBool false);
   ("created_at", VTime now)].

(** [create_person].  First statement: for every User with the given id,
    a Person and the OWNS relationship to it.  When that yields no
    record, the second statement creates a Person that carries the
    owner's id in its [user_id] property and has no relationship. *)
Definition create_person (g : graph) (now : Z) (person_id user_id : string)
           (f : person_fields) : graph * option dict :=
  let '(g1, created) :=
    fold_left
      (fun st u =>
         let '(ga, p) :=
           create_node (fst st) "Person"
                       (("id", VStr person_id) :: person_blobs f now) in
         let '(gb, _) := create_rel ga (nid u) "OWNS" (nid p) [] in
         (gb, snd st ++ [p]))
      (match_nodes g "User" [("id", VStr user_id)]) (g, []) in
  match single created with
  | Some p =>
    let person := nprops p in
    let person := <["owner_id" := VStr user_id]> person in
    (g1, Some person)
  | None =>
    let '(g2, p) :=
      create_node g1 "Person"
                  (("id", VStr person_id) :: ("user_id", VStr user_id)
                   :: person_blobs f now) in
    (g2, Some (nprops p))
  end.

(** [get_person] *)
Definition get_person (g : graph) (person_id user_id : string) : option dict :=
  let records :=
    u ← match_nodes g "User" [("id", VStr user_id)];
    p ← match_nodes g "Person" [("id", VStr person_id)];
    if has_rel g u "OWNS" p || has_rel g u "SHARED_WITH" p then
      let is_owner := has_rel g u "OWNS" p in
      match sources_of g "User" "OWNS" p with
      | [] => [(p, is_owner, VNull)]
      | owners => map (fun owner => (p, is_owner, prop (nprops owner) "id")) owners
      end
    else [] in
  match single records with
  | Some (p, is_owner, owner_id) =>
    let person := nprops p in
    let person := <["is_owner" := VBool is_owner]> person in
    let person := <["owner_id" := owner_id]> person in
    Some person
  | None =>
    let records :=
      List.filter (legacy_owned user_id)
                  (match_nodes g "Person" [("id", VStr person_id)]) in
    match single records with
    | Some p =>
      let person := nprops p in
      let person := <["is_owner" := VBool true]> person in
      Some person
    | None => None
    end
  end.

(** [get_sources_for_person] *)
Definition sources_rows (g : graph) (p : node) : list dict :=
  r ← out_rels g p "EVIDENCED_BY";
  s ← option_list (node_by_nid g (rdst r));
  if node_is "Source" [] s
  then [<["evidence_type" := prop (rprops r) "evidence_type"]> (nprops s)]
  else [].

Definition get_sources_for_person (g : graph) (person_id user_id : string)
  : list dict :=
  let sources :=
    u ← match_nodes g "User" [("id", VStr user_id)];
    p ← targets_of g u "OWNS" "Person" [("id", VStr person_id)];
    sources_rows g p in
  match sources with
  | _ :: _ => sources
  | [] =>
    p ← List.filter (legacy_owned user_id)
                    (match_nodes g "Person" [("id", VStr person_id)]);
    sources_rows g p
  end.

(** ** Family relationships *)

(** The common tail of both statements of [add_spouse]:
    [MERGE (p1)-[r1:SPOUSE]->(p2) MERGE (p2)-[r2:SPOUSE]->(p1)
     SET r1.status = ..., r2.status = ... RETURN p1, p2]. *)
Definition spouse_merge (g : graph) (rows : list (node * node))
           (status : string) (marriage_order : Z) (marriage_type : string)
  : graph * list (node * node) :=
  let '(g1, rows1) :=
    merge_rows g rows (fun row => nid (fst row)) (fun row => nid (snd row))
               "SPOUSE" [] in
  let '(g2, rows2) :=
    merge_rows g1 rows1 (fun row => nid (snd (fst row)))
               (fun row => nid (fst (fst row))) "SPOUSE" [] in
  let kvs := [("status", VStr status);
              ("marriage_order", VInt marriage_order);
              ("marriage_type", VStr marriage_type)] in
  let g3 :=
    fold_left
      (fun g row =>
         let r1 := snd (fst row) in
         let r2 := snd row in
         set_rel_props (set_rel_props g r1 kvs) r2 kvs)
      rows2 g2 in
  (g3, map (fun row => fst (fst row)) rows2).

(** [MATCH (p1:Person {id: a})-[r:SPOUSE]-(p2:Person {id: b}) SET r.k = v]
    (the pattern is undirected). *)
Definition set_spouse_prop (g : graph) (person1_id person2_id : string)
           (k : string) (v : value) : graph :=
  let is_person (i : nat) (id : string) :=
    match node_by_nid g i with
    | Some n => node_is "Person" [("id", VStr id)] n
    | None => false
    end in
  let hit r :=
    bool_decide (rtype r = "SPOUSE")
    && ((is_person (rsrc r) person1_id && is_person (rdst r) person2_id)
        || (is_person (rsrc r) person2_id && is_person (rdst r) person1_id)) in
  fold_left (fun g r => set_rel_props g (rid r) [(k, v)])
            (List.filter hit (rels g)) g.

(** [add_spouse] *)
Definition add_spouse (g : graph) (person1_id person2_id user_id : string)
           (marriage_year divorce_year : option Z)
           (status : MarriageStatus) (marriage_type : option MarriageType)
           (marriage_order : Z) : graph * bool :=
  let marriage_type := default CIVIL marriage_type in
  let status := MarriageStatus_value status in
  let marriage_type := MarriageType_value marriage_type in
  let rows :=
    u ← match_nodes g "User" [("id", VStr user_id)];
    p1 ← targets_of g u "OWNS" "Person" [("id", VStr person1_id)];
    p2 ← targets_of g u "OWNS" "Person" [("id", VStr person2_id)];
    [(p1, p2)] in
  let '(g1, records) := spouse_merge g rows status marriage_order marriage_type in
  let '(g2, record) :=
    match single records with
    | Some record => (g1, Some record)
    | None =>
      let rows :=
        p1 ← match_nodes g1 "Person" [("id", VStr person1_id)];
        p2 ← match_nodes g1 "Person" [("id", VStr person2_id)];
        if legacy_owned user_id p1 && legacy_owned user_id p2
        then [(p1, p2)] else [] in
      let '(g', records) :=
        spouse_merge g1 rows status marriage_order marriage_type in
      (g', single records)
    end in
  match record with
  | None => (g2, false)
  | Some _ =>
    let g3 :=
      match marriage_year with
      | Some y => set_spouse_prop g2 person1_id person2_id "marriage_year" (VInt y)
      | None => g2
      end in
    let g4 :=
      match divorce_year with
      | Some y => set_spouse_prop g3 person1_id person2_id "divorce_year" (VInt y)
      | None => g3
      end in
    (g4, true)
  end.

(** [add_sibling] *)
Definition add_sibling (g : graph) (person1_id person2_id user_id : string)
           (sibling_type : SiblingType) : graph * bool :=
  let rows :=
    p1 ← match_nodes g "Person" [("id", VStr person1_id); ("user_id", VStr user_id)];
    p2 ← match_nodes g "Person" [("id", VStr person2_id); ("user_id", VStr user_id)];
    [(p1, p2)] in
  let kvs := [("type", VStr (SiblingType_value sibling_type))] in
  let '(g1, rows1) :=
    merge_rows g rows (fun row => nid (fst row)) (fun row => nid (snd row))
               "SIBLING" kvs in
  let '(g2, rows2) :=
    merge_rows g1 rows1 (fun row => nid (snd (fst row)))
               (fun row => nid (fst (fst row))) "SIBLING" kvs in
  (g2, match single rows2 with Some _ => true | None => false end).

(** [create_relationship] normalizes the relation name and splices it
    into the text of the statement. *)
Definition relation_map : list (string * string) :=
  [("PARENT", "PARENT_OF"); ("CHILD", "CHILD_OF"); ("SPOUSE", "SPOUSE");
   ("parent", "PARENT_OF"); ("child", "CHILD_OF"); ("spouse", "SPOUSE");
   ("sibling", "SIBLING")].

Definition relation_map_get (k : string) : option string :=
  snd <$> find (fun e => String.eqb (fst e) k) relation_map.

(** [str.upper()] on ASCII text. *)
Definition upper_ascii (c : ascii) : ascii :=
  let n := nat_of_ascii c in
  if (97 <=? n)%nat && (n <=? 122)%nat then ascii_of_nat (n - 32) else c.

Fixpoint upper (s : string) : string :=
  match s with
  | EmptyString => EmptyString
  | String c r => String (upper_ascii c) (upper r)
  end.

(** A relationship type that can stand unquoted in the statement. *)
Definition ident_char (first : bool) (c : ascii) : bool :=
  let n := nat_of_ascii c in
  ((65 <=? n)%nat && (n <=? 90)%nat) || ((97 <=? n)%nat && (n <=? 122)%nat)
  || (n =? 95)%nat || (negb first && (48 <=? n)%nat && (n <=? 57)%nat).

Definition is_identifier (s : string) : bool :=
  match s with
  | EmptyString => false
  | String c r => ident_char true c && forallb (ident_char false) (list_ascii_of_string r)
  end.

Definition metadata_keys : list string :=
  ["marriage_date"; "divorce_date"; "is_adopted"; "type"].

(** The [, r.key = $key] items added for the metadata. *)
Definition metadata_sets (metadata : option dict) : list (string * value) :=
  match metadata with
  | Some md => omap (fun k => (fun v => (k, v)) <$> md !! k) metadata_keys
  | None => []
  end.

(** [create_relationship]: one directed relationship from [from_id] to
    [to_id].  A name that is not a plain ASCII identifier would alter the
    statement itself; such names are outside this model and are answered
    like a statement that fails ([False], nothing written). *)
Definition create_relationship (g : graph) (now : Z) (from_id to_id : string)
           (relation_type : string) (metadata : option dict) : graph * bool :=
  let rel_type := default (upper relation_type) (relation_map_get relation_type) in
  if negb (is_identifier rel_type) then (g, false) else
  let rows :=
    from ← match_nodes g "Person" [("id", VStr from_id)];
    to ← match_nodes g "Person" [("id", VStr to_id)];
    [(from, to)] in
  let '(g1, rows1) :=
    merge_rows g rows (fun row => nid (fst row)) (fun row => nid (snd row))
               rel_type [] in
  let kvs := [("created_at", VTime now); ("updated_at", VTime now)]
             ++ metadata_sets metadata in
  let g2 := fold_left (fun g row => set_rel_props g (snd row) kvs) rows1 g1 in
  (g2, match single rows1 with Some _ => true | None => false end).

(** ** Sharing: invites *)

(** [create_invite] *)
Definition create_invite (g : graph) (now : Z) (invite_id owner_id : string)
           (expires_at : option Z) : graph * option dict :=
  let '(g1, created) :=
    fold_left
      (fun st owner =>
         let '(ga, i) :=
           create_node (fst st) "Invite"
             [("id", VStr invite_id);
              ("owner_id", VStr owner_id);
              ("status", VStr "pending");
              ("created_at", VTime now);
              ("expires_at", match expires_at with Some t => VTime t | None => VNull end)] in
         let '(gb, _) := create_rel ga (nid owner) "CREATED_INVITE" (nid i) [] in
         (gb, snd st ++ [i]))
      (match_nodes g "User" [("id", VStr owner_id)]) (g, []) in
  (g1, nprops <$> single created).

(** The dict returned by [accept_invite]. *)
Record accept_result : Type := mkAcceptResult {
  invite : dict;
  owner_id : value;
  owner_public_key : value;
  recipient_public_key : value
}.

(** [accept_invite]: the statement looks at the invite's id and status,
    and at nothing else of the invite. *)
Definition accept_invite (g : graph) (now : Z) (invite_id recipient_id : string)
  : graph * option accept_result :=
  let rows :=
    i ← match_nodes g "Invite" [("id", VStr invite_id); ("status", VStr "pending")];
    recipient ← match_nodes g "User" [("id", VStr recipient_id)];
    [(i, recipient)] in
  let g1 :=
    fold_left
      (fun g row =>
         set_node_props g (nid (fst row))
           [("recipient_id", VStr recipient_id);
            ("status", VStr "accepted");
            ("accepted_at", VTime now)])
      rows g in
  let records :=
    row ← rows;
    i ← option_list (node_by_nid g1 (nid (fst row)));
    owner ← match_nodes g1 "User" [("id", prop (nprops i) "owner_id")];
    [mkAcceptResult (nprops i)
                    (prop (nprops owner) "id")
                    (prop (nprops owner) "public_key")
                    (prop (nprops (snd row)) "public_key")] in
  (g1, single records).

(** ** Deleting persons and ghost nodes *)

Definition str_int (n : Z) : string := NilZero.string_of_int (Z.to_int n).

(** [{"action": ..., "success": ..., "message": ...}] *)
Record delete_result : Type := mkDeleteResult {
  action : string;
  success : bool;
  message : string
}.

(** The first record of
    [... OPTIONAL MATCH (p)-[r:PARENT_OF]->() WITH p, count(r) AS
    descendants_count RETURN p, descendants_count], given the rows bound
    for [p]: the count adds up the PARENT_OF relationships leaving [p]
    over all rows that bind the same node. *)
Definition first_descendants_count (g : graph) (ps : list node) : option (node * Z) :=
  match ps with
  | [] => None
  | p :: _ =>
    let same := List.filter (fun q => bool_decide (nid q = nid p)) ps in
    Some (p, Z.of_nat (length same * length (out_rels g p "PARENT_OF")))
  end.

(** [SET p.is_deleted = true, p.deleted_at = datetime(), p.ghost_name = ...]
    on [MATCH (p:Person {id: $person_id})]. *)
Definition set_ghost (g : graph) (now : Z) (person_id ghost_name : string) : graph :=
  fold_left
    (fun g p =>
       set_node_props g (nid p)
         [("is_deleted", VBool true);
          ("deleted_at", VTime now);
          ("ghost_name", VStr ghost_name)])
    (match_nodes g "Person" [("id", VStr person_id)]) g.

(** [MATCH (u:User {id: $user_id})-[:OWNS]->(p:Person {id: $person_id})] *)
Definition owned_persons (g : graph) (person_id user_id : string) : list node :=
  u ← match_nodes g "User" [("id", VStr user_id)];
  targets_of g u "OWNS" "Person" [("id", VStr person_id)].

(** [MATCH (u:User {id: $user_id})-[r:SHARED_WITH]->(p:Person {id: $person_id})],
    the identities of [r]. *)
Definition shared_rels (g : graph) (person_id user_id : string) : list nat :=
  u ← match_nodes g "User" [("id", VStr user_id)];
  r ← out_rels g u "SHARED_WITH";
  p ← option_list (node_by_nid g (rdst r));
  if node_is "Person" [("id", VStr person_id)] p then [rid r] else [].

Section GhostNodes.

(** The first statement of [_generate_ghost_name] picks one reference
    Person of the user without a PARENT_OF relationship pointing at it
    ([LIMIT 1], in the store's own order) and asks the store for
    [shortestPath((ghost)-[*]-(leaf))].  Its answer is taken from the
    store: [None] when the statement raises, [Some None] when it yields no
    record, [Some (Some (gender, distance))] otherwise. *)
Variable leaf_distance : graph -> string -> string -> option (option (value * Z)).

(** [_generate_ghost_name] *)
Definition _generate_ghost_name (g : graph) (person_id user_id : string)
  : option string :=
  record ← leaf_distance g person_id user_id;
  match record with
  | None =>
    let rec := single (match_nodes g "Person" [("id", VStr person_id)]) in
    let gender :=
      match rec with
      | Some p => prop (nprops p) "gender"
      | None => VStr "M"
      end in
    Some (if bool_decide (gender = VStr "M") then "родич" else "родичка")
  | Some (gender, distance) =>
    let male := bool_decide (gender = VStr "M") in
    if (distance =? 1)%Z then Some (if male then "дід" else "баба")
    else if (distance =? 2)%Z then Some (if male then "прадід" else "прабаба")
    else if (distance =? 3)%Z then
      Some (if male then "двоюрідний дід" else "двоюрідна баба")
    else
      let generation := (distance - 1)%Z in
      Some (if male
            then ("родич " ++ str_int generation ++ " коліна")%string
            else ("родичка " ++ str_int generation ++ " коліна")%string)
  end.

(** The owner's branch, written three times in [delete_person]: ghost
    when there are descendants, [DETACH DELETE] of [doomed] otherwise. *)
Definition ghost_or_delete (g : graph) (now : Z) (person_id user_id : string)
           (descendants : Z) (doomed : list node)
           (ghost_note : string) (deleted_message : string)
  : option (graph * delete_result) :=
  if (descendants >? 0)%Z then
    ghost_name ← _generate_ghost_name g person_id user_id;
    Some (set_ghost g now person_id ghost_name,
          mkDeleteResult "ghosted" true
            ("Person converted to ghost '" ++ ghost_name ++ "' ("
             ++ ghost_note ++ str_int descendants ++ " descendants)")%string)
  else
    Some (detach_delete g (map nid doomed),
          mkDeleteResult "deleted" true deleted_message).

(** [delete_person]; [None] when a statement raises. *)
Definition delete_person (g : graph) (now : Z) (person_id user_id : string)
  : option (graph * delete_result) :=
  (* 1. the caller owns the person *)
  let owned := owned_persons g person_id user_id in
  match first_descendants_count g owned with
  | Some (_, descendants) =>
    ghost_or_delete g now person_id user_id descendants
      (match_nodes g "Person" [("id", VStr person_id)])
      "has " "Person and all relations deleted"
  | None =>
    (* 2. the caller is a guest *)
    let shared := shared_rels g person_id user_id in
    let g := delete_rels g shared in
    if (Z.of_nat (length shared) >? 0)%Z then
      Some (g, mkDeleteResult "unshared" true
                 "Removed from your view (original preserved)")
    else
      (* 3. older format: owner_id kept in a property *)
      let by_owner_id :=
        match_nodes g "Person" [("id", VStr person_id); ("owner_id", VStr user_id)] in
      match first_descendants_count g by_owner_id with
      | Some (_, descendants) =>
        ghost_or_delete g now person_id user_id descendants by_owner_id
          "legacy, " "Person deleted (legacy mode)"
      | None =>
        (* 4. user_id kept in a property, no User node *)
        let by_user_id :=
          match_nodes g "Person" [("id", VStr person_id); ("user_id", VStr user_id)] in
        match first_descendants_count g by_user_id with
        | Some (_, descendants) =>
          ghost_or_delete g now person_id user_id descendants by_user_id
            "user_id mode, " "Person deleted (user_id mode)"
        | None =>
          Some (g, mkDeleteResult "not_found" false
                     "Person not found or access denied")
        end
      end
  end.

End GhostNodes.

End Neo4jDB.

(* ===================================================================== *)
(** * main.py: the handlers in front of the store *)
(* ===================================================================== *)

Module Main.
Import Graph.
Local Open Scope string_scope.

(** A handler returns its body or raises [HTTPException]. *)
Inductive http (A : Type) : Type :=
| Ok (body : A)
| HTTPException (status_code : Z) (detail : string).
Arguments Ok {A} body.
Arguments HTTPException {A} status_code detail.

(** The person dict with its added ["sources"] entry. *)
Record person_body : Type := mkPersonBody {
  person : dict;
  sources : list dict
}.

(** [GET /api/v1/person/{person_id}] *)
Definition get_person (g : graph) (person_id user_id : string) : http person_body :=
  match Neo4jDB.get_person g person_id user_id with
  | None => HTTPException 404 "Person not found"
  | Some person =>
    let sources := Neo4jDB.get_sources_for_person g person_id user_id in
    Ok (mkPersonBody person sources)
  end.

Record invite_body : Type := mkInviteBody {
  ib_success : bool;
  ib_invite_id : string;
  ib_qr_data : string;
  ib_expires_at : Z
}.

(** [POST /api/v1/share/invite].  [token] is [uuid.uuid4().hex[:16]];
    [now] is [datetime.utcnow()], in seconds. *)
Definition create_invite (g : graph) (now : Z) (token : string)
           (expires_in_hours : Z) (user_id : string) : graph * http invite_body :=
  match Neo4jDB.get_user g user_id with
  | None => (g, HTTPException 404 "User not found")
  | Some _ =>
    let invite_id := "inv_" ++ token in
    let expires_at := (now + expires_in_hours * 3600)%Z in
    match Neo4jDB.create_invite g now invite_id user_id (Some expires_at) with
    | (g', None) => (g', HTTPException 500 "Failed to create invite")
    | (g', Some _) =>
      (g', Ok (mkInviteBody true invite_id ("rodovid://share/" ++ invite_id) expires_at))
    end
  end.

Record accept_body : Type := mkAcceptBody {
  ab_success : bool;
  ab_invite_id : string;
  ab_owner_id : value;
  ab_message : string
}.

(** [POST /api/v1/share/accept] *)
Definition accept_invite (g : graph) (now : Z) (invite_id user_id : string)
  : graph * http accept_body :=
  match Neo4jDB.get_user g user_id with
  | None => (g, HTTPException 404 "Recipient user not found")
  | Some _ =>
    match Neo4jDB.accept_invite g now invite_id user_id with
    | (g', None) => (g', HTTPException 404 "Invite not found or expired")
    | (g', Some result) =>
      (g', Ok (mkAcceptBody true invite_id (Neo4jDB.owner_id result)
                 "Invite accepted. Waiting for owner confirmation."))
    end
  end.

End Main.

(* ===================================================================== *)
(** * A reference store and the fixtures of the test suite *)
(* ===================================================================== *)

Module Fixtures.
Import Graph Neo4jDB.
Local Open Scope string_scope.
Local Open Scope list_scope.

(** Breadth-first distance between two nodes, relationships taken in
    either direction and of any type. *)
Definition neighbours (g : graph) (i : nat) : list nat :=
  r ← rels g;
  (if bool_decide (rsrc r = i) then [rdst r] else [])
  ++ (if bool_decide (rdst r = i) then [rsrc r] else []).

Fixpoint bfs (g : graph) (fuel : nat) (frontier seen : list nat)
         (target : nat) (dist : Z) : option Z :=
  match fuel with
  | O => None
  | S fuel =>
    if bool_decide (target ∈ frontier) then Some dist
    else
      let seen := seen ++ frontier in
      let next :=
        List.filter (fun i => negb (bool_decide (i ∈ seen)))
                    (i ← frontier; neighbours g i) in
      match next with
      | [] => None
      | _ => bfs g fuel next seen target (dist + 1)
      end
  end.

(** One store's answer to the first statement of [_generate_ghost_name]:
    the reference Person is the first one in the order of creation, and
    [shortestPath] refuses a path from a node to itself (the default
    configuration). *)
Definition reference_leaf_distance (g : graph) (person_id user_id : string)
  : option (option (value * Z)) :=
  let leaves :=
    List.filter (fun leaf => match in_rels g "PARENT_OF" leaf with
                             | [] => true
                             | _ => false
                             end)
                (match_nodes g "Person" [("user_id", VStr user_id)]) in
  match leaves with
  | [] => Some None
  | leaf :: _ =>
    let ghosts := match_nodes g "Person" [("id", VStr person_id)] in
    if existsb (fun ghost => bool_decide (nid ghost = nid leaf)) ghosts
    then None
    else
      Some (single
              (ghost ← ghosts;
               match bfs g (S (length (nodes g))) [nid ghost] [] (nid leaf) 0 with
               | Some dist => [(prop (nprops ghost) "gender", dist)]
               | None => []
               end))
  end.

(** The statement with which the tests share a person with a guest:
    [MATCH (bob:User {id: $bob_id}) MATCH (p:Person {id: ...})
     CREATE (bob)-[:SHARED_WITH]->(p)]. *)
Definition share_person (g : graph) (guest_id person_id : string) : graph :=
  fold_left
    (fun g row => fst (create_rel g (nid (fst row)) "SHARED_WITH" (nid (snd row)) []))
    (bob ← match_nodes g "User" [("id", VStr guest_id)];
     p ← match_nodes g "Person" [("id", VStr person_id)];
     [(bob, p)])
    g.

Definition no_fields : person_fields :=
  mkPersonFields None None None None None None None None false None None.

(** The users of the [alice_bob_users] fixture. *)
Definition alice_bob_users : graph :=
  let g := fst (create_user empty_graph 0 "test_alice" "alice_pk" None None None) in
  let g := fst (create_user g 0 "test_bob" "bob_pk" None None None) in
  fst (create_user g 0 "test_charlie" "charlie_pk" None None None).

(** The store of [test_C6_private_notes_isolation] before Bob reads. *)
Definition private_notes_store : graph :=
  let g :=
    fst (create_person alice_bob_users 10 "test_sec_notes" "test_alice"
           (mkPersonFields (Some "ENC_person") None None None None
                           (Some "ENC_alice_secret_notes") None None false
                           None None)) in
  share_person g "test_bob" "test_sec_notes".

(** An invite created with a negative lifetime, as in
    [test_D8_expired_invite_rejection] ([expires_hours=-1]): it is
    already past its expiry when it is created. *)
Definition expired_invite_store : graph :=
  fst (Main.create_invite alice_bob_users 100000 "0123456789abcdef" (-1) "test_alice").

(** A person created for an owner id without a User node. *)
Definition legacy_store : graph :=
  fst (create_person empty_graph 0 "p1" "u1" no_fields).

(** Alice owns a parent and its child, linked by PARENT_OF. *)
Definition family_store : graph :=
  let g := fst (create_person alice_bob_users 10 "parent" "test_alice" no_fields) in
  let g := fst (create_person g 11 "child" "test_alice" no_fields) in
  fst (create_relationship g 12 "parent" "child" "PARENT_OF" None).

(** Alice owns two unrelated persons. *)
Definition spouses_store : graph :=
  let g := fst (create_person alice_bob_users 10 "a" "test_alice" no_fields) in
  fst (create_person g 11 "b" "test_alice" no_fields).

(** Two persons of the older format, kept under the owner id [u1]. *)
Definition siblings_store : graph :=
  let g := fst (create_person empty_graph 10 "s1" "u1" no_fields) in
  fst (create_person g 11 "s2" "u1" no_fields).

End Fixtures.

(* ===================================================================== *)
(** * Properties of the date resolver *)
(* ===================================================================== *)

Module ResolverFacts.
Import PyStr Regex TimeResolver.

Lemma int_digits4 (a b c e : char) :
  isdecimal a = true -> isdecimal b = true ->
  isdecimal c = true -> isdecimal e = true ->
  is_Some (int_digits [a; b; c; e]).
Proof.
  unfold isdecimal, int_digits, int_acc.
  destruct (to_decimal a), (to_decimal b), (to_decimal c), (to_decimal e);
    intros; try discriminate; eauto.
Qed.

(** A successful [(\d{4})] consumed four decimal digits and recorded them. *)
Lemma rmatch_group_d4 n s caps k res :
  rmatch (Group n d4) s caps k = Some res ->
  exists a b c e s',
    s = a :: b :: c :: e :: s'
    /\ is_Some (int_digits [a; b; c; e])
    /\ k s' (<[n := [a; b; c; e]]> caps) = Some res.
Proof.
  simpl.
  destruct s as [|a [|b [|c [|e s']]]]; simpl;
    repeat match goal with
           | |- context [if isdecimal ?x then _ else _] =>
             destruct (isdecimal x) eqn:?; simpl
           end; try discriminate.
  intros H. exists a, b, c, e, s'. split; [reflexivity|].
  split; [apply int_digits4; assumption|].
  replace (S (S (S (S (length s')))) - length s') with 4 in H by lia.
  exact H.
Qed.

Lemma numeric_insert n t caps :
  is_Some (int_digits t) -> numeric caps -> numeric (<[n := t]> caps).
Proof.
  intros Ht Hc i u. rewrite lookup_insert.
  case_decide; [intros [= <-]; exact Ht | apply Hc].
Qed.

(** What a successful match hands to its continuation. *)
Lemma rmatch_numeric r :
  digit_groups r ->
  forall s caps k res,
    rmatch r s caps k = Some res ->
    exists s' caps',
      k s' caps' = Some res
      /\ (numeric caps -> numeric caps')
      /\ (forall n, In n (groups_set r) \/ is_Some (caps !! n) ->
                    is_Some (caps' !! n)).
Proof.
  induction r as [|c|c|a IHa b IHb|a IHa b IHb|a IHa|n a IHa|];
    intros Hd s caps k res H; simpl in *.
  - exists s, caps. intuition.
  - destruct s as [|x s']; [discriminate|].
    destruct (cls_match c x); [|discriminate].
    exists s', caps. intuition.
  - revert H. induction s as [|x s' IHs]; intros H.
    + exists [], caps. intuition.
    + destruct (cls_match c x).
      * destruct ((fix star (s : list N) : option captures :=
                     match s with
                     | [] => k s caps
                     | x0 :: s'0 =>
                       if cls_match c x0
                       then match star s'0 with
                            | Some res0 => Some res0
                            | None => k s caps
                            end
                       else k s caps
                     end) s') eqn:E.
        -- injection H as ->. apply IHs. reflexivity.
        -- exists (x :: s'), caps. intuition.
      * exists (x :: s'), caps. intuition.
  - destruct Hd as [Ha Hb].
    destruct (IHa Ha _ _ _ _ H) as (s1 & c1 & H1 & N1 & G1).
    destruct (IHb Hb _ _ _ _ H1) as (s2 & c2 & H2 & N2 & G2).
    exists s2, c2. split; [exact H2|]. split; [tauto|].
    intros i Hi. apply G2.
    rewrite in_app_iff in Hi. destruct Hi as [[Hi|Hi]|Hi]; [right|left|right];
      auto.
  - destruct Hd as [Ha Hb].
    destruct (rmatch a s caps k) eqn:E.
    + injection H as ->.
      destruct (IHa Ha _ _ _ _ E) as (s1 & c1 & H1 & N1 & G1).
      exists s1, c1. split; [exact H1|]. split; [exact N1|].
      intros i [[]|Hi]. apply G1. right. exact Hi.
    + destruct (IHb Hb _ _ _ _ H) as (s1 & c1 & H1 & N1 & G1).
      exists s1, c1. split; [exact H1|]. split; [exact N1|].
      intros i [[]|Hi]. apply G1. right. exact Hi.
  - destruct (rmatch a s caps k) eqn:E.
    + injection H as ->.
      destruct (IHa Hd _ _ _ _ E) as (s1 & c1 & H1 & N1 & G1).
      exists s1, c1. split; [exact H1|]. split; [exact N1|].
      intros i [[]|Hi]. apply G1. right. exact Hi.
    + exists s, caps. intuition.
  - subst a.
    destruct (rmatch_group_d4 n s caps k res H) as (x1 & x2 & x3 & x4 & s' & -> & Hi & Hk).
    exists s', (<[n := [x1; x2; x3; x4]]> caps).
    split; [exact Hk|]. split; [apply numeric_insert; exact Hi|].
    intros i Hin. rewrite lookup_insert. case_decide; [eauto|].
    destruct Hin as [[Hin|[]]|Hin]; [congruence|exact Hin].
  - destruct s as [|x s'].
    + exists [], caps. intuition.
    + assert (x = 10%N /\ s' = []) as [-> ->].
      { destruct x as [|p]; [discriminate|].
        repeat (destruct p as [p|p|]; try discriminate).
        destruct s'; [auto|discriminate]. }
      exists [10%N], caps. intuition.
Qed.

Lemma numeric_empty : numeric ∅.
Proof. intros n t. rewrite lookup_empty. discriminate. Qed.

Lemma re_match_group_int r text mt n :
  digit_groups r -> In n (groups_set r) ->
  re_match r text = Some mt -> is_Some (group_int mt n).
Proof.
  intros Hd Hn H. unfold re_match in H.
  destruct (rmatch_numeric r Hd _ _ _ _ H) as (s' & c' & [= ->] & N & G).
  unfold group_int.
  destruct (G n (or_introl Hn)) as [t Ht]. rewrite Ht.
  exact (N numeric_empty n t Ht).
Qed.

Lemma re_search_match r text mt :
  re_search r text = Some mt -> exists text', re_match r text' = Some mt.
Proof.
  induction text as [|x text IH]; simpl.
  - destruct (re_match r []) eqn:E; [intros [= <-]; eauto | discriminate].
  - destruct (re_match r (x :: text)) eqn:E; [intros [= <-]; eauto | exact IH].
Qed.

(** The six patterns only capture [(\d{4})] groups. *)
Lemma pat_exact_groups : digit_groups pat_exact /\ In 1 (groups_set pat_exact).
Proof. cbv. intuition. Qed.

Lemma pat_exact_euro_groups :
  digit_groups pat_exact_euro /\ In 1 (groups_set pat_exact_euro).
Proof. cbv. intuition. Qed.

Lemma pat_approximate_groups :
  digit_groups pat_approximate /\ In 1 (groups_set pat_approximate).
Proof. cbv. intuition. Qed.

Lemma pat_range_groups :
  digit_groups pat_range /\ In 1 (groups_set pat_range)
  /\ In 2 (groups_set pat_range).
Proof. cbv. intuition. Qed.

Lemma pat_year_in_text_groups :
  digit_groups pat_year_in_text /\ In 1 (groups_set pat_year_in_text).
Proof. cbv. intuition. Qed.

Lemma search_year_int text mt :
  re_search pat_year_in_text text = Some mt -> is_Some (group_int mt 1).
Proof.
  intros H. destruct (re_search_match _ _ _ H) as [text' H'].
  destruct pat_year_in_text_groups as [Hd Hi].
  exact (re_match_group_int _ _ _ 1 Hd Hi H').
Qed.

(** [resolve] on a text, once the text is stripped and not empty. *)
Definition resolve_text (text : pystr) : option ResolvedDate :=
  match re_match pat_unknown text with
  | Some _ => Some (mkResolvedDate None text false None None "unknown")
  | None =>
  match re_match pat_exact text with
  | Some mt =>
    year ← group_int mt 1;
    Some (mkResolvedDate (Some year) text false None None "exact")
  | None =>
  match re_match pat_exact_euro text with
  | Some mt =>
    year ← group_int mt 1;
    Some (mkResolvedDate (Some year) text false None None "exact")
  | None =>
  match re_match pat_approximate text with
  | Some mt =>
    year ← group_int mt 1;
    Some (mkResolvedDate (Some year) text true None None "approximate")
  | None =>
  match re_match pat_range text with
  | Some mt =>
    start ← group_int mt 1;
    end_ ← group_int mt 2;
    let middle := ((start + end_) / 2)%Z in
    Some (mkResolvedDate (Some middle) text true (Some start) (Some end_) "range")
  | None =>
  match re_search pat_year_in_text text with
  | Some mt =>
    year ← group_int mt 1;
    if ((1000 <=? year) && (year <=? 2100))%Z
    then Some (mkResolvedDate (Some year) text true None None "approximate")
    else Some (mkResolvedDate None text false None None "unknown")
  | None => Some (mkResolvedDate None text false None None "unknown")
  end end end end end end.

Lemma resolve_DStr s :
  resolve (DStr s) =
  match strip s with
  | [] => Some (mkResolvedDate None [] false None None "unknown")
  | _ => resolve_text (strip s)
  end.
Proof. reflexivity. Qed.

Lemma resolve_text_total text : is_Some (resolve_text text).
Proof.
  unfold resolve_text.
  destruct (re_match pat_unknown text); [eauto|].
  destruct (re_match pat_exact text) as [mt|] eqn:E1.
  { destruct pat_exact_groups as [Hd Hi].
    destruct (re_match_group_int _ _ _ 1 Hd Hi E1) as [y ->]. simpl. eauto. }
  destruct (re_match pat_exact_euro text) as [mt|] eqn:E2.
  { destruct pat_exact_euro_groups as [Hd Hi].
    destruct (re_match_group_int _ _ _ 1 Hd Hi E2) as [y ->]. simpl. eauto. }
  destruct (re_match pat_approximate text) as [mt|] eqn:E3.
  { destruct pat_approximate_groups as [Hd Hi].
    destruct (re_match_group_int _ _ _ 1 Hd Hi E3) as [y ->]. simpl. eauto. }
  destruct (re_match pat_range text) as [mt|] eqn:E4.
  { destruct pat_range_groups as (Hd & Hi1 & Hi2).
    destruct (re_match_group_int _ _ _ 1 Hd Hi1 E4) as [y1 ->].
    destruct (re_match_group_int _ _ _ 2 Hd Hi2 E4) as [y2 ->]. simpl. eauto. }
  destruct (re_search pat_year_in_text text) as [mt|] eqn:E5; [|eauto].
  destruct (search_year_int _ _ E5) as [y ->]. simpl.
  destruct ((1000 <=? y)%Z && (y <=? 2100)%Z); eauto.
Qed.

Lemma resolve_total x : is_Some (resolve x).
Proof.
  destruct x as [|n|s]; [simpl; eauto..|].
  rewrite resolve_DStr. destruct (strip s); [eauto|].
  apply resolve_text_total.
Qed.

Lemma resolve_text_unrecognized text :
  recognized text = false ->
  resolve_text text = Some (mkResolvedDate None text false None None "unknown").
Proof.
  unfold recognized, resolve_text. intros H.
  repeat (apply orb_false_elim in H; destruct H as [H ?]).
  repeat match goal with
         | Hb : bool_decide (is_Some ?o) = false |- _ =>
           let E := fresh "E" in
           destruct o eqn:E;
           [ apply bool_decide_eq_false in Hb; exfalso; apply Hb; eauto
           | clear Hb ]
         end.
  destruct (re_search pat_year_in_text text) as [mt|] eqn:E5; [|reflexivity].
  destruct (search_year_int _ _ E5) as [y Hy]. rewrite Hy in *. simpl.
  match goal with Hc : _ && _ = false |- _ => rewrite Hc end.
  reflexivity.
Qed.





(** The resolutions listed in the module's docstring. *)
Example resolve_range :
  resolve (DStr (py "1910..1920"))
  = Some (mkResolvedDate (Some 1915%Z) (py "1910..1920") true
                         (Some 1910%Z) (Some 1920%Z) "range").
Proof. vm_compute. reflexivity. Qed.

Example resolve_circa :
  resolve (DStr (py "c. 1900"))
  = Some (mkResolvedDate (Some 1900%Z) (py "c. 1900") true None None "approximate").
Proof. vm_compute. reflexivity. Qed.

Example resolve_question_mark :
  resolve (DStr (py "?"))
  = Some (mkResolvedDate None (py "?") false None None "unknown").
Proof. vm_compute. reflexivity. Qed.

Example resolve_euro_date :
  resolve (DStr (py " 20.05.1990 "))
  = Some (mkResolvedDate (Some 1990%Z) (py "20.05.1990") false None None "exact").
Proof. vm_compute. reflexivity. Qed.

Example resolve_year_in_text :
  resolve (DStr (py "народився 1900 року"))
  = Some (mkResolvedDate (Some 1900%Z) (py "народився 1900 року") true
                         None None "approximate").
Proof. vm_compute. reflexivity. Qed.

Example resolve_unparseable :
  unrecognized (DStr (py "давно")) = true
  /\ resolve (DStr (py "давно"))
     = Some (mkResolvedDate None (py "давно") false None None "unknown").
Proof. split; vm_compute; reflexivity. Qed.

End ResolverFacts.

(* ===================================================================== *)
(** * Properties of the validators *)
(* ===================================================================== *)

Module ValidatorFacts.
Import PyStr TimeResolver Validators.
Local Open Scope Z_scope.

#[local] Opaque py str_of_int fmt.

Lemma resolve_year_total x : is_Some (resolve_year x).
Proof.
  unfold resolve_year.
  destruct (ResolverFacts.resolve_total x) as [r ->]. simpl. eauto.
Qed.

(** The result list holds a result of the given level. *)
Definition reports (l : ValidationLevel) (rs : list ValidationResult) : Prop :=
  exists r, In r rs /\ level r = l.

Ltac no_report :=
  let r := fresh "r" in
  let Hin := fresh "Hin" in
  let Hl := fresh "Hl" in
  intros (r & Hin & Hl); simpl in Hin;
  repeat destruct Hin as [Hin|Hin]; try contradiction;
  subst r; simpl in Hl; try discriminate.

Ltac report_first := eexists; split; [left; reflexivity | reflexivity].









End ValidatorFacts.

(* ===================================================================== *)
(** * Properties of the store operations *)
(* ===================================================================== *)

Module StoreFacts.
Import Graph Neo4jDB Fixtures.
Local Open Scope string_scope.
Local Open Scope list_scope.

(** C1.  The store of [test_C6_private_notes_isolation]: Alice owns a
    person with private notes, Bob holds only a SHARED_WITH relationship
    to it.  [get_person] for Bob reports [is_owner = False] and still
    returns Alice's private notes, and the handler passes the dict on. *)
Theorem guest_reads_private_notes :
  exists person,
    Neo4jDB.get_person private_notes_store "test_sec_notes" "test_bob" = Some person
    /\ person !! "is_owner" = Some (VBool false)
    /\ person !! "owner_id" = Some (VStr "test_alice")
    /\ person !! "private_notes_blob" = Some (VStr "ENC_alice_secret_notes")
    /\ exists body,
         Main.get_person private_notes_store "test_sec_notes" "test_bob" = Main.Ok body
         /\ Main.person body = person.
Proof.
  eexists. split; [vm_compute; reflexivity|].
  split; [vm_compute; reflexivity|].
  split; [vm_compute; reflexivity|].
  split; [vm_compute; reflexivity|].
  eexists. split; [vm_compute; reflexivity|]. reflexivity.
Qed.

(** C2.  An invite that expired an hour before it was created (time
    100000, lifetime -1 hour) is accepted at a later time: the handler
    answers with success, and the invite becomes [accepted] with Bob as
    its recipient. *)
Theorem expired_invite_is_accepted :
  let invite_id := "inv_0123456789abcdef" in
  exists i g' body accepted,
    single (match_nodes expired_invite_store "Invite" [("id", VStr invite_id)]) = Some i
    /\ prop (nprops i) "status" = VStr "pending"
    /\ prop (nprops i) "expires_at" = VTime 96400
    /\ (96400 < 200000)%Z
    /\ Main.accept_invite expired_invite_store 200000 invite_id "test_bob"
       = (g', Main.Ok body)
    /\ Main.ab_success body = true
    /\ Main.ab_owner_id body = VStr "test_alice"
    /\ single (match_nodes g' "Invite" [("id", VStr invite_id)]) = Some accepted
    /\ prop (nprops accepted) "status" = VStr "accepted"
    /\ prop (nprops accepted) "recipient_id" = VStr "test_bob".
Proof.
  cbv zeta. eexists. eexists. eexists. eexists.
  split; [vm_compute; reflexivity|].
  split; [vm_compute; reflexivity|].
  split; [vm_compute; reflexivity|].
  split; [reflexivity|].
  split; [vm_compute; reflexivity|].
  split; [reflexivity|].
  split; [reflexivity|].
  split; [vm_compute; reflexivity|].
  split; vm_compute; reflexivity.
Qed.

(** C3, as stated, fails: in a store without any User, [create_person]
    does not fail; it returns the person and leaves a Person node (and
    no relationship) behind. *)
Lemma create_person_without_owner :
  match_nodes empty_graph "User" [("id", VStr "nobody")] = []
  /\ exists g' person,
       create_person empty_graph 0 "p1" "nobody" no_fields = (g', Some person)
       /\ person !! "user_id" = Some (VStr "nobody")
       /\ length (match_nodes g' "Person" [("id", VStr "p1")]) = 1
       /\ rels g' = [].
Proof.
  split; [reflexivity|]. eexists. eexists.
  split; [vm_compute; reflexivity|].
  split; [vm_compute; reflexivity|].
  split; vm_compute; reflexivity.
Qed.

(** C3, amended.  With no User of that id, [create_person] adds one
    Person node that carries the owner's id in its [user_id] property,
    adds no relationship, and returns the person.  With one User of that
    id, it adds the Person node and the OWNS relationship from the User
    to it in the same step, and returns the person with [owner_id]. *)
Theorem create_person_outcome (g : graph) (now : Z) (person_id user_id : string)
        (f : person_fields) (users : list node) :
  match_nodes g "User" [("id", VStr user_id)] = users ->
  length users <= 1 ->
  create_person g now person_id user_id f =
  match users with
  | [] =>
    let p := mkNode (next_id g) "Person"
               (set_props (("id", VStr person_id) :: ("user_id", VStr user_id)
                           :: person_blobs f now) ∅) in
    (mkGraph (nodes g ++ [p]) (rels g) (S (next_id g)), Some (nprops p))
  | u :: _ =>
    let p := mkNode (next_id g) "Person"
               (set_props (("id", VStr person_id) :: person_blobs f now) ∅) in
    let owns := mkRel (S (next_id g)) (nid u) "OWNS" (nid p) ∅ in
    (mkGraph (nodes g ++ [p]) (rels g ++ [owns]) (S (S (next_id g))),
     Some (<["owner_id" := VStr user_id]> (nprops p)))
  end.
Proof.
  intros Hu Hlen. unfold create_person. rewrite Hu.
  destruct users as [|u [|u' rest]]; [reflexivity | reflexivity |].
  simpl in Hlen. lia.
Qed.

Lemma create_person_outcome_witness :
  create_person alice_bob_users 10 "p1" "test_alice" no_fields =
  let g := alice_bob_users in
  let p := mkNode (next_id g) "Person"
             (set_props (("id", VStr "p1") :: person_blobs no_fields 10) ∅) in
  let owns := mkRel (S (next_id g)) 0 "OWNS" (nid p) ∅ in
  (mkGraph (nodes g ++ [p]) (rels g ++ [owns]) (S (S (next_id g))),
   Some (<["owner_id" := VStr "test_alice"]> (nprops p))).
Proof.
  apply (create_person_outcome alice_bob_users 10 "p1" "test_alice" no_fields
           [mkNode 0 "User"
              (set_props [("id", VStr "test_alice"); ("public_key", VStr "alice_pk");
                          ("created_at", VTime 0)] ∅)]).
  - vm_compute. reflexivity.
  - simpl. lia.
Defined.

(** ** Deleting a person *)

Lemma delete_rels_nil g : delete_rels g [] = g.
Proof.
  destruct g as [ns rs nx]. unfold delete_rels. cbn [nodes rels next_id].
  f_equal. induction rs as [|r rs IH]; [reflexivity|].
  cbn [List.filter]. destruct (bool_decide (rid r ∈ [])) eqn:E.
  - apply bool_decide_eq_true in E. inversion E.
  - cbn [negb]. congruence.
Qed.

Lemma node_by_nid_Some g i n :
  node_by_nid g i = Some n -> In n (nodes g) /\ nid n = i.
Proof.
  unfold node_by_nid. intros H. apply find_some in H. destruct H as [Hin Hb].
  split; [exact Hin|]. apply bool_decide_eq_true in Hb. exact Hb.
Qed.

Lemma targets_of_In g a ty label conds n :
  n ∈ targets_of g a ty label conds ->
  In n (nodes g) /\ node_is label conds n = true.
Proof.
  unfold targets_of. intros H.
  apply list_elem_of_bind in H. destruct H as (r & H & _).
  apply list_elem_of_bind in H. destruct H as (n0 & H & Hn0).
  destruct (node_by_nid g (rdst r)) as [n1|] eqn:E; simpl in Hn0;
    [|inversion Hn0].
  apply list_elem_of_singleton in Hn0. subst n0.
  destruct (node_is label conds n1) eqn:En; [|inversion H].
  apply list_elem_of_singleton in H. subst n.
  split; [apply (node_by_nid_Some _ _ _ E) | exact En].
Qed.

Lemma owned_persons_In g person_id user_id p :
  In p (owned_persons g person_id user_id) ->
  In p (nodes g) /\ node_is "Person" [("id", VStr person_id)] p = true.
Proof.
  unfold owned_persons. intros H. apply list_elem_of_In in H.
  apply list_elem_of_bind in H. destruct H as (u & H & _).
  exact (targets_of_In _ _ _ _ _ _ H).
Qed.

Lemma first_descendants_count_cons g p ps :
  exists d,
    first_descendants_count g (p :: ps) = Some (p, d)
    /\ ((d >? 0)%Z = true <-> out_rels g p "PARENT_OF" <> []).
Proof.
  unfold first_descendants_count. eexists. split; [reflexivity|].
  cbn [List.filter]. rewrite bool_decide_eq_true_2 by reflexivity.
  cbn [length]. destruct (out_rels g p "PARENT_OF") as [|r rs]; simpl.
  - rewrite Nat.mul_0_r. simpl. split; [discriminate | congruence].
  - split; [discriminate|]. intros _. apply Z.gtb_lt. lia.
Qed.

(** What [set_ghost] does to the store. *)
Definition ghost_marked (now : Z) (ghost_name : string) (n : node) : Prop :=
  prop (nprops n) "is_deleted" = VBool true
  /\ prop (nprops n) "deleted_at" = VTime now
  /\ prop (nprops n) "ghost_name" = VStr ghost_name.

Section SetGhost.
Variables (now : Z) (ghost_name : string).

Let kvs : list (string * value) :=
  [("is_deleted", VBool true); ("deleted_at", VTime now);
   ("ghost_name", VStr ghost_name)].

Let mark (g : graph) (ps : list node) : graph :=
  fold_left (fun g p => set_node_props g (nid p) kvs) ps g.

Lemma mark_rels ps : forall g, rels (mark g ps) = rels g.
Proof.
  induction ps as [|p ps IH]; intros g; [reflexivity|].
  unfold mark in *. simpl. rewrite IH. reflexivity.
Qed.

Lemma mark_nids ps : forall g, map nid (nodes (mark g ps)) = map nid (nodes g).
Proof.
  induction ps as [|p ps IH]; intros g; [reflexivity|].
  unfold mark in *. simpl. rewrite IH. simpl. rewrite map_map.
  apply map_ext. intros n. destruct (bool_decide (nid n = nid p)); reflexivity.
Qed.

Lemma mark_labels ps : forall g,
  map nlabel (nodes (mark g ps)) = map nlabel (nodes g).
Proof.
  induction ps as [|p ps IH]; intros g; [reflexivity|].
  unfold mark in *. simpl. rewrite IH. simpl. rewrite map_map.
  apply map_ext. intros n. destruct (bool_decide (nid n = nid p)); reflexivity.
Qed.

Lemma marked_set_props m :
  ghost_marked now ghost_name (mkNode 0 "" (set_props kvs m)).
Proof.
  unfold ghost_marked, kvs, set_props, set_prop, prop; simpl.
  repeat split; simplify_map_eq; reflexivity.
Qed.

Lemma mark_hit ps : forall g n,
  In n (nodes g) ->
  ghost_marked now ghost_name n \/ (exists p, In p ps /\ nid p = nid n) ->
  exists n', In n' (nodes (mark g ps)) /\ nid n' = nid n
             /\ ghost_marked now ghost_name n'.
Proof.
  induction ps as [|p ps IH]; intros g n Hin H.
  - destruct H as [H|(p & [] & _)]. exists n. auto.
  - unfold mark in *. simpl.
    set (up := fun n0 : node =>
                 if bool_decide (nid n0 = nid p)
                 then mkNode (nid n0) (nlabel n0) (set_props kvs (nprops n0))
                 else n0).
    assert (Hin' : In (up n) (nodes (set_node_props g (nid p) kvs))).
    { simpl. apply in_map_iff. exists n. split; [reflexivity | exact Hin]. }
    assert (Hid : nid (up n) = nid n).
    { unfold up. destruct (bool_decide (nid n = nid p)); reflexivity. }
    destruct (IH _ (up n) Hin') as (n' & Hn' & Hid' & Hm).
    + unfold up. destruct (bool_decide (nid n = nid p)) eqn:E.
      * left. apply (marked_set_props (nprops n)).
      * apply bool_decide_eq_false in E.
        destruct H as [H|(q & [Hq|Hq] & Hqn)].
        -- left. exact H.
        -- subst q. congruence.
        -- right. exists q. split; [exact Hq | exact Hqn].
    + exists n'. split; [exact Hn'|]. split; [congruence | exact Hm].
Qed.

Lemma set_ghost_facts g person_id p :
  In p (nodes g) -> node_is "Person" [("id", VStr person_id)] p = true ->
  let g' := set_ghost g now person_id ghost_name in
  rels g' = rels g
  /\ map nid (nodes g') = map nid (nodes g)
  /\ map nlabel (nodes g') = map nlabel (nodes g)
  /\ exists p', In p' (nodes g') /\ nid p' = nid p
                /\ ghost_marked now ghost_name p'.
Proof.
  intros Hin Hp. cbv zeta. unfold set_ghost.
  change (fold_left _ ?ps g) with (mark g ps).
  split; [apply mark_rels|]. split; [apply mark_nids|].
  split; [apply mark_labels|].
  apply mark_hit; [exact Hin|]. right. exists p. split; [|reflexivity].
  unfold match_nodes. apply filter_In. split; assumption.
Qed.

End SetGhost.




(** ** Symmetric relationships *)

Lemma filter_nil_impl {A : Type} (P Q : A -> bool) (l : list A) :
  (forall x, Q x = true -> P x = true) ->
  List.filter P l = [] -> List.filter Q l = [].
Proof.
  intros HPQ. induction l as [|x l IH]; simpl; [reflexivity|].
  destruct (P x) eqn:EP; [discriminate|]. intros H.
  destruct (Q x) eqn:EQ; [rewrite (HPQ x EQ) in EP; discriminate|]. auto.
Qed.

Lemma directed_none g ty a b :
  between g ty a b = [] ->
  List.filter (rel_is a ty b) (rels g) = []
  /\ List.filter (rel_is b ty a) (rels g) = [].
Proof.
  intros H. split; (eapply filter_nil_impl; [|exact H]);
    intros r Hr; unfold rel_is in Hr;
    repeat (apply andb_prop in Hr; destruct Hr as [Hr ?]);
    (apply andb_true_intro; split; [assumption|]);
    apply orb_true_intro; [left|right]; apply andb_true_intro; split; assumption.
Qed.

Lemma merge_rel_new g a ty b kvs :
  List.filter (rel_is a ty b) (rels g) = [] ->
  merge_rel g a ty b kvs =
  (mkGraph (nodes g) (rels g ++ [mkRel (next_id g) a ty b (set_props kvs ∅)])
           (S (next_id g)), [next_id g]).
Proof.
  intros H. unfold merge_rel.
  erewrite filter_nil_impl; [reflexivity| |exact H].
  intros r Hr. apply andb_prop in Hr. tauto.
Qed.

Lemma set_rel_props_other (l : list rel) i kvs :
  (forall r, In r l -> rid r <> i) ->
  map (fun r => if bool_decide (rid r = i)
                then mkRel (rid r) (rsrc r) (rtype r) (rdst r)
                           (set_props kvs (rprops r))
                else r) l = l.
Proof.
  intros H. induction l as [|r l IH]; simpl; [reflexivity|].
  rewrite bool_decide_eq_false_2 by (apply H; left; reflexivity).
  f_equal. apply IH. intros r' Hr'. apply H. right. exact Hr'.
Qed.

Lemma merge_pair g (row : node * node) ty kvs :
  nid (fst row) <> nid (snd row) ->
  between g ty (nid (fst row)) (nid (snd row)) = [] ->
  let e1 := mkRel (next_id g) (nid (fst row)) ty (nid (snd row)) (set_props kvs ∅) in
  let e2 := mkRel (S (next_id g)) (nid (snd row)) ty (nid (fst row)) (set_props kvs ∅) in
  exists g1 rows1,
    merge_rows g [row] (fun row => nid (fst row)) (fun row => nid (snd row)) ty kvs
    = (g1, rows1)
    /\ merge_rows g1 rows1 (fun row => nid (snd (fst row)))
                 (fun row => nid (fst (fst row))) ty kvs
       = (mkGraph (nodes g) (rels g ++ [e1; e2]) (S (S (next_id g))),
          [((row, next_id g), S (next_id g))]).
Proof.
  intros Hne Hnone. cbv zeta.
  destruct (directed_none _ _ _ _ Hnone) as [H12 H21].
  eexists. eexists. split.
  - unfold merge_rows. cbn [fold_left fst snd].
    rewrite (merge_rel_new _ _ _ _ _ H12). reflexivity.
  - unfold merge_rows. cbn [fold_left fst snd app map].
    rewrite merge_rel_new.
    + cbn [nodes rels next_id map app]. rewrite <- app_assoc. reflexivity.
    + cbn [rels]. rewrite List.filter_app, H21. cbn [List.filter app].
      unfold rel_is at 1. cbn [rsrc rtype rdst].
      rewrite (bool_decide_eq_false_2 (nid row.1 = nid row.2)) by exact Hne.
      reflexivity.
Qed.

Definition spouse_kvs (status : string) (marriage_order : Z) (marriage_type : string)
  : list (string * value) :=
  [("status", VStr status); ("marriage_order", VInt marriage_order);
   ("marriage_type", VStr marriage_type)].

Lemma spouse_merge_single g p1 p2 status marriage_order marriage_type :
  nid p1 <> nid p2 ->
  fresh_ids g ->
  between g "SPOUSE" (nid p1) (nid p2) = [] ->
  let m := set_props (spouse_kvs status marriage_order marriage_type) ∅ in
  spouse_merge g [(p1, p2)] status marriage_order marriage_type
  = (mkGraph (nodes g)
             (rels g ++ [mkRel (next_id g) (nid p1) "SPOUSE" (nid p2) m;
                         mkRel (S (next_id g)) (nid p2) "SPOUSE" (nid p1) m])
             (S (S (next_id g))),
     [(p1, p2)]).
Proof.
  intros Hne Hfresh Hnone. cbv zeta.
  destruct (merge_pair g (p1, p2) "SPOUSE" [] Hne Hnone) as (g1 & rows1 & E1 & E2).
  unfold spouse_merge. rewrite E1, E2.
  cbn [fold_left map fst snd].
  unfold set_rel_props. cbn [nodes rels next_id].
  rewrite map_app, (set_rel_props_other (rels g)), map_app,
    (set_rel_props_other (rels g)).
  - cbn [map rid rsrc rtype rdst rprops fst snd].
    rewrite (bool_decide_eq_true_2 (next_id g = next_id g)) by reflexivity.
    rewrite (bool_decide_eq_false_2 (S (next_id g) = next_id g)) by lia.
    cbn [rid rsrc rtype rdst rprops].
    rewrite (bool_decide_eq_true_2 (S (next_id g) = S (next_id g))) by reflexivity.
    rewrite (bool_decide_eq_false_2 (next_id g = S (next_id g))) by lia.
    reflexivity.
  - intros r Hr. apply Hfresh in Hr. lia.
  - intros r Hr. apply Hfresh in Hr. lia.
Qed.

(** ** [SET] over a list of relationships *)

Definition upd_rel (kvs : list (string * value)) (r : rel) : rel :=
  mkRel (rid r) (rsrc r) (rtype r) (rdst r) (set_props kvs (rprops r)).

Definition set_all (kvs : list (string * value)) (hits : list rel) (r : rel) : rel :=
  fold_left (fun r h => if bool_decide (rid r = rid h) then upd_rel kvs r else r)
            hits r.

Lemma fold_set_rels kvs (hits : list rel) : forall g,
  fold_left (fun g h => set_rel_props g (rid h) kvs) hits g
  = mkGraph (nodes g) (map (set_all kvs hits) (rels g)) (next_id g).
Proof.
  induction hits as [|h hits IH]; intros g.
  - destruct g. unfold set_all. cbn [fold_left nodes rels next_id].
    rewrite map_id. reflexivity.
  - cbn [fold_left]. rewrite IH. unfold set_rel_props. cbn [nodes rels next_id].
    rewrite map_map. reflexivity.
Qed.

Lemma set_all_shape kvs (hits : list rel) :
  (forall m, set_props kvs (set_props kvs m) = set_props kvs m) ->
  forall r,
    set_all kvs hits r
    = mkRel (rid r) (rsrc r) (rtype r) (rdst r)
            (if existsb (fun h => bool_decide (rid r = rid h)) hits
             then set_props kvs (rprops r) else rprops r).
Proof.
  intros Hidem. induction hits as [|h hits IH]; intros r.
  - destruct r. reflexivity.
  - unfold set_all in *. cbn [fold_left existsb]. rewrite IH.
    destruct (bool_decide (rid r = rid h)); cbn [orb upd_rel rid rsrc rtype rdst rprops].
    + rewrite Hidem. destruct (existsb _ hits); reflexivity.
    + reflexivity.
Qed.

Lemma filter_map_comm {A : Type} (P : A -> bool) (F : A -> A) (l : list A) :
  (forall x, P (F x) = P x) ->
  List.filter P (map F l) = map F (List.filter P l).
Proof.
  intros H. induction l as [|x l IH]; simpl; [reflexivity|].
  rewrite H. destruct (P x); simpl; congruence.
Qed.

(** [SET r.k = y] on the SPOUSE relationships between the persons of two
    ids reaches both relationships of a pair. *)
Lemma set_spouse_prop_between g person1_id person2_id k y p1 p2 e1 e2 :
  node_by_nid g (nid p1) = Some p1 ->
  node_is "Person" [("id", VStr person1_id)] p1 = true ->
  node_by_nid g (nid p2) = Some p2 ->
  node_is "Person" [("id", VStr person2_id)] p2 = true ->
  between g "SPOUSE" (nid p1) (nid p2) = [e1; e2] ->
  let g' := set_spouse_prop g person1_id person2_id k (VInt y) in
  nodes g' = nodes g
  /\ between g' "SPOUSE" (nid p1) (nid p2)
     = [upd_rel [(k, VInt y)] e1; upd_rel [(k, VInt y)] e2].
Proof.
  intros N1 P1 N2 P2 Hb. cbv zeta. unfold set_spouse_prop.
  assert (Hidem : forall m : props,
             set_props [(k, VInt y)] (set_props [(k, VInt y)] m)
             = set_props [(k, VInt y)] m).
  { intros m. unfold set_props, set_prop. cbn. apply insert_insert_eq. }
  match goal with |- context [fold_left _ ?h g] => set (hits := h) end.
  rewrite (fold_set_rels [(k, VInt y)]). cbn [nodes]. split; [reflexivity|].
  unfold between at 1. cbn [rels].
  rewrite filter_map_comm
    by (intros r; rewrite (set_all_shape _ _ Hidem); reflexivity).
  fold (between g "SPOUSE" (nid p1) (nid p2)). rewrite Hb. cbn [map].
  assert (Hhit : forall e, In e [e1; e2] ->
             set_all [(k, VInt y)] hits e = upd_rel [(k, VInt y)] e).
  { intros e He.
    assert (Hin : In e (between g "SPOUSE" (nid p1) (nid p2))).
    { rewrite Hb. exact He. }
    unfold between in Hin. apply filter_In in Hin. destruct Hin as [Hin HP].
    rewrite (set_all_shape _ _ Hidem). unfold upd_rel. f_equal.
    match goal with |- (if ?b then _ else _) = _ =>
      assert (Hb' : b = true); [|rewrite Hb'; reflexivity]
    end.
    apply existsb_exists. exists e. split; [|apply bool_decide_eq_true_2; reflexivity].
    apply filter_In. split; [exact Hin|].
    apply andb_prop in HP. destruct HP as [HT HD].
    rewrite HT. cbn [andb].
    apply orb_prop in HD. destruct HD as [HD|HD];
      apply andb_prop in HD; destruct HD as [Hs Hd];
      apply bool_decide_eq_true in Hs; apply bool_decide_eq_true in Hd;
      rewrite Hs, Hd, N1, N2, P1, P2; cbn [andb orb];
      [reflexivity | apply orb_true_r]. }
  rewrite (Hhit e1), (Hhit e2) by (cbn; auto). reflexivity.
Qed.

Lemma targets_of_single g a ty label conds n :
  targets_of g a ty label conds = [n] ->
  node_by_nid g (nid n) = Some n /\ node_is label conds n = true.
Proof.
  intros H.
  assert (Hin : n ∈ targets_of g a ty label conds) by (rewrite H; left).
  unfold targets_of in Hin.
  apply list_elem_of_bind in Hin. destruct Hin as (r & Hin & _).
  apply list_elem_of_bind in Hin. destruct Hin as (n0 & Hin & Hn0).
  destruct (node_by_nid g (rdst r)) as [n1|] eqn:E; simpl in Hn0;
    [|inversion Hn0].
  apply list_elem_of_singleton in Hn0. subst n0.
  destruct (node_is label conds n1) eqn:En; [|inversion Hin].
  apply list_elem_of_singleton in Hin. subst n.
  destruct (node_by_nid_Some _ _ _ E) as [_ Hid]. rewrite Hid.
  split; [exact E | exact En].
Qed.

Lemma between_new g ty a b i j m :
  between (mkGraph (nodes g)
                   (rels g ++ [mkRel i a ty b m; mkRel j b ty a m])
                   (S (S (next_id g)))) ty a b
  = between g ty a b ++ [mkRel i a ty b m; mkRel j b ty a m].
Proof.
  unfold between. cbn [rels]. rewrite List.filter_app.
  cbn [List.filter rtype rsrc rdst].
  rewrite !(bool_decide_eq_true_2 (ty = ty)) by reflexivity.
  rewrite !(bool_decide_eq_true_2 (a = a)) by reflexivity.
  rewrite !(bool_decide_eq_true_2 (b = b)) by reflexivity.
  rewrite orb_true_r. cbn [andb orb]. reflexivity.
Qed.

Definition with_year (k : string) (o : option Z) (m : props) : props :=
  match o with
  | Some y => set_prop k (VInt y) m
  | None => m
  end.

Lemma add_spouse_pair g user_id person1_id person2_id u p1 p2
      marriage_year divorce_year status marriage_type marriage_order :
  nid p1 <> nid p2 -> fresh_ids g ->
  match_nodes g "User" [("id", VStr user_id)] = [u] ->
  targets_of g u "OWNS" "Person" [("id", VStr person1_id)] = [p1] ->
  targets_of g u "OWNS" "Person" [("id", VStr person2_id)] = [p2] ->
  between g "SPOUSE" (nid p1) (nid p2) = [] ->
  let m :=
    with_year "divorce_year" divorce_year
      (with_year "marriage_year" marriage_year
         (set_props (spouse_kvs (MarriageStatus_value status) marriage_order
                                (MarriageType_value (default CIVIL marriage_type)))
                    ∅)) in
  exists g',
    add_spouse g person1_id person2_id user_id marriage_year divorce_year
               status marriage_type marriage_order = (g', true)
    /\ nodes g' = nodes g
    /\ between g' "SPOUSE" (nid p1) (nid p2)
       = [mkRel (next_id g) (nid p1) "SPOUSE" (nid p2) m;
          mkRel (S (next_id g)) (nid p2) "SPOUSE" (nid p1) m].
Proof.
  intros Hne Hfresh Hu H1 H2 Hnone. cbv zeta.
  destruct (targets_of_single _ _ _ _ _ _ H1) as [N1 P1].
  destruct (targets_of_single _ _ _ _ _ _ H2) as [N2 P2].
  unfold add_spouse. rewrite Hu.
  rewrite bind_singleton, H1, bind_singleton, H2, bind_singleton.
  rewrite (spouse_merge_single _ _ _ _ _ _ Hne Hfresh Hnone).
  cbn [single head].
  set (m0 := set_props _ ∅).
  set (g2 := mkGraph _ _ _).
  assert (B2 : between g2 "SPOUSE" (nid p1) (nid p2)
               = [mkRel (next_id g) (nid p1) "SPOUSE" (nid p2) m0;
                  mkRel (S (next_id g)) (nid p2) "SPOUSE" (nid p1) m0]).
  { unfold g2. rewrite between_new, Hnone. reflexivity. }
  assert (N1' : node_by_nid g2 (nid p1) = Some p1) by exact N1.
  assert (N2' : node_by_nid g2 (nid p2) = Some p2) by exact N2.
  assert (E2 : nodes g2 = nodes g) by reflexivity.
  clearbody g2.
  destruct marriage_year as [my|]; cbn [with_year].
  - destruct (set_spouse_prop_between g2 person1_id person2_id "marriage_year" my
                _ _ _ _ N1' P1 N2' P2 B2) as [E3 B3].
    set (g3 := set_spouse_prop g2 _ _ _ _) in *.
    assert (N1'' : node_by_nid g3 (nid p1) = Some p1).
    { unfold node_by_nid. rewrite E3. exact N1'. }
    assert (N2'' : node_by_nid g3 (nid p2) = Some p2).
    { unfold node_by_nid. rewrite E3. exact N2'. }
    clearbody g3.
    destruct divorce_year as [dy|]; cbn [with_year].
    + destruct (set_spouse_prop_between g3 person1_id person2_id "divorce_year" dy
                  _ _ _ _ N1'' P1 N2'' P2 B3) as [E4 B4].
      eexists. split; [reflexivity|]. split; [congruence|]. exact B4.
    + eexists. split; [reflexivity|]. split; [congruence|]. exact B3.
  - destruct divorce_year as [dy|]; cbn [with_year].
    + destruct (set_spouse_prop_between g2 person1_id person2_id "divorce_year" dy
                  _ _ _ _ N1' P1 N2' P2 B2) as [E4 B4].
      eexists. split; [reflexivity|]. split; [congruence|]. exact B4.
    + eexists. split; [reflexivity|]. split; [congruence|]. exact B2.
Qed.

Lemma add_sibling_pair g user_id person1_id person2_id p1 p2 sibling_type :
  nid p1 <> nid p2 ->
  match_nodes g "Person" [("id", VStr person1_id); ("user_id", VStr user_id)] = [p1] ->
  match_nodes g "Person" [("id", VStr person2_id); ("user_id", VStr user_id)] = [p2] ->
  between g "SIBLING" (nid p1) (nid p2) = [] ->
  let m := set_props [("type", VStr (SiblingType_value sibling_type))] ∅ in
  exists g',
    add_sibling g person1_id person2_id user_id sibling_type = (g', true)
    /\ nodes g' = nodes g
    /\ between g' "SIBLING" (nid p1) (nid p2)
       = [mkRel (next_id g) (nid p1) "SIBLING" (nid p2) m;
          mkRel (S (next_id g)) (nid p2) "SIBLING" (nid p1) m].
Proof.
  intros Hne H1 H2 Hnone. cbv zeta.
  unfold add_sibling. rewrite H1, bind_singleton, H2, bind_singleton.
  destruct (merge_pair g (p1, p2) "SIBLING"
              [("type", VStr (SiblingType_value sibling_type))] Hne Hnone)
    as (g1 & rows1 & E1 & E2).
  rewrite E1, E2. cbn [single head fst snd].
  eexists. split; [reflexivity|]. split; [reflexivity|].
  rewrite between_new, Hnone. reflexivity.
Qed.

Lemma spouse_props status marriage_order marriage_type my dy :
  let m := with_year "divorce_year" dy
             (with_year "marriage_year" my
                (set_props (spouse_kvs status marriage_order marriage_type) ∅)) in
  prop m "status" = VStr status
  /\ prop m "marriage_order" = VInt marriage_order
  /\ prop m "marriage_type" = VStr marriage_type
  /\ prop m "marriage_year" = oint my
  /\ prop m "divorce_year" = oint dy.
Proof.
  cbv zeta. unfold prop, spouse_kvs, set_props.
  destruct my, dy; cbn [with_year fold_left set_prop fst snd oint];
    repeat split; simplify_map_eq; reflexivity.
Qed.

Lemma fresh_ids_check g :
  forallb (fun r => (rid r <? next_id g)%nat) (rels g) = true -> fresh_ids g.
Proof.
  intros H r Hr. rewrite forallb_forall in H.
  apply Nat.ltb_lt. apply H. exact Hr.
Qed.




End StoreFacts.

(* ===================================================================== *)
(** * Further properties of the date resolver *)
(* ===================================================================== *)

Module ResolverExtras.
Import PyStr Regex TimeResolver ResolverFacts.
Local Open Scope Z_scope.

(** ** Stripping *)

Lemma lstrip_idem s : lstrip (lstrip s) = lstrip s.
Proof.
  induction s as [|c s IH]; [reflexivity|]. simpl.
  destruct (isspace c) eqn:E; [exact IH|]. simpl. rewrite E. reflexivity.
Qed.

Lemma lstrip_snoc s c : isspace c = false -> lstrip (s ++ [c]) = lstrip s ++ [c].
Proof.
  intros Hc. induction s as [|x s IH]; simpl.
  - rewrite Hc. reflexivity.
  - destruct (isspace x); [exact IH | reflexivity].
Qed.

Lemma lstrip_head s : lstrip s = [] \/ exists c t, lstrip s = c :: t /\ isspace c = false.
Proof.
  induction s as [|x s IH]; [left; reflexivity|]. simpl.
  destruct (isspace x) eqn:E; [exact IH|]. right. eauto.
Qed.

Lemma lstrip_rstrip t :
  (t = [] \/ exists c t', t = c :: t' /\ isspace c = false) ->
  lstrip (rstrip t) = rstrip t.
Proof.
  intros [->|(c & t' & -> & Hc)]; [reflexivity|].
  unfold rstrip. simpl. rewrite lstrip_snoc by exact Hc.
  rewrite rev_app_distr. simpl. rewrite Hc. reflexivity.
Qed.

Lemma rstrip_idem t : rstrip (rstrip t) = rstrip t.
Proof. unfold rstrip. rewrite rev_involutive, lstrip_idem. reflexivity. Qed.

Lemma strip_idem s : strip (strip s) = strip s.
Proof.
  unfold strip. rewrite (lstrip_rstrip (lstrip s)) by apply lstrip_head.
  apply rstrip_idem.
Qed.

Ltac resolved :=
  cbn [mbind option_bind];
  first [ discriminate
        | let H := fresh in intros H; injection H as <-; cbn ].

Lemma resolve_text_original text r : resolve_text text = Some r -> original r = text.
Proof.
  unfold resolve_text.
  destruct (re_match pat_unknown text); [resolved; reflexivity|].
  destruct (re_match pat_exact text) as [mt|];
    [destruct (group_int mt 1); resolved; reflexivity|].
  destruct (re_match pat_exact_euro text) as [mt|];
    [destruct (group_int mt 1); resolved; reflexivity|].
  destruct (re_match pat_approximate text) as [mt|];
    [destruct (group_int mt 1); resolved; reflexivity|].
  destruct (re_match pat_range text) as [mt|];
    [destruct (group_int mt 1), (group_int mt 2); resolved; reflexivity|].
  destruct (re_search pat_year_in_text text) as [mt|]; [|resolved; reflexivity].
  destruct (group_int mt 1) as [y|]; cbn [mbind option_bind]; [|discriminate].
  destruct ((1000 <=? y) && (y <=? 2100)); resolved; reflexivity.
Qed.

(** X1.  Blanks around a date text do not matter: the text resolves like
    its stripped form, which is also what [original] records. *)
Theorem resolve_ignores_outer_blanks (s : pystr) :
  resolve (DStr (strip s)) = resolve (DStr s)
  /\ forall r, resolve (DStr s) = Some r -> original r = strip s.
Proof.
  split.
  - rewrite !resolve_DStr, strip_idem. reflexivity.
  - intros r. rewrite resolve_DStr.
    destruct (strip s) as [|c t] eqn:Es; [intros [= <-]; reflexivity|].
    apply resolve_text_original.
Qed.

(** ** The shape of a resolution *)

(** The four kinds of resolution: which fields go with which confidence. *)
Definition well_shaped (r : ResolvedDate) : Prop :=
  (confidence r = "exact"%string /\ is_Some (year r) /\ is_approximate r = false
   /\ range_start r = None /\ range_end r = None)
  \/ (confidence r = "approximate"%string /\ is_Some (year r)
      /\ is_approximate r = true /\ range_start r = None /\ range_end r = None)
  \/ (confidence r = "range"%string /\ is_approximate r = true
      /\ exists a b, range_start r = Some a /\ range_end r = Some b
                     /\ year r = Some ((a + b) / 2)
                     /\ Z.min a b <= (a + b) / 2 <= Z.max a b)
  \/ (confidence r = "unknown"%string /\ year r = None /\ is_approximate r = false
      /\ range_start r = None /\ range_end r = None).

Lemma midpoint_between a b : Z.min a b <= (a + b) / 2 <= Z.max a b.
Proof.
  assert (H := Z.div_mod (a + b) 2 ltac:(lia)).
  assert (H' := Z.mod_pos_bound (a + b) 2 ltac:(lia)).
  lia.
Qed.

Ltac shape_unknown := right; right; right; cbn; repeat split; reflexivity.
Ltac shape_exact := left; cbn; repeat split; eauto.
Ltac shape_approx := right; left; cbn; repeat split; eauto.

Lemma resolve_text_shape text r : resolve_text text = Some r -> well_shaped r.
Proof.
  unfold resolve_text, well_shaped.
  destruct (re_match pat_unknown text); [resolved; shape_unknown|].
  destruct (re_match pat_exact text) as [mt|];
    [destruct (group_int mt 1); resolved; shape_exact|].
  destruct (re_match pat_exact_euro text) as [mt|];
    [destruct (group_int mt 1); resolved; shape_exact|].
  destruct (re_match pat_approximate text) as [mt|];
    [destruct (group_int mt 1); resolved; shape_approx|].
  destruct (re_match pat_range text) as [mt|].
  { destruct (group_int mt 1) as [a|], (group_int mt 2) as [b|]; resolved.
    right; right; left. repeat split. exists a, b.
    repeat split; apply midpoint_between. }
  destruct (re_search pat_year_in_text text) as [mt|]; [|resolved; shape_unknown].
  destruct (group_int mt 1) as [y|]; cbn [mbind option_bind]; [|discriminate].
  destruct ((1000 <=? y) && (y <=? 2100)); resolved;
    [shape_approx | shape_unknown].
Qed.

(** X2.  Every resolution has one of four shapes: exact or approximate with a
    year and no range; a range with both endpoints, marked approximate,
    whose year is the floor midpoint and lies between the endpoints
    (whichever is larger); or unknown with no year and no range. *)
Theorem resolve_well_shaped (x : date_input) (r : ResolvedDate) :
  resolve x = Some r -> well_shaped r.
Proof.
  destruct x as [|n|s].
  - intros [= <-]. unfold well_shaped. shape_unknown.
  - intros [= <-]. unfold well_shaped. shape_exact.
  - rewrite resolve_DStr. destruct (strip s).
    + intros [= <-]. unfold well_shaped. shape_unknown.
    + apply resolve_text_shape.
Qed.

Lemma resolve_well_shaped_witness :
  well_shaped (mkResolvedDate (Some 1915) (py "1920-1910") true
                              (Some 1920) (Some 1910) "range").
Proof.
  apply (resolve_well_shaped (DStr (py "1920-1910"))).
  vm_compute. reflexivity.
Defined.

(** ** Bounds on the year read from a text *)

Lemma to_decimal_bound c v : to_decimal c = Some v -> 0 <= v <= 9.
Proof.
  unfold to_decimal.
  match goal with
  | |- context [find ?f decimal_zeros] =>
    destruct (find f decimal_zeros) as [z|] eqn:E; [|discriminate]
  end.
  intros [= <-]. apply find_some in E. destruct E as [_ E].
  apply andb_prop in E. destruct E as [E1 E2].
  apply N.leb_le in E1. apply N.ltb_lt in E2. lia.
Qed.

Definition year4 (t : pystr) : Prop :=
  exists y, int_digits t = Some y /\ 0 <= y <= 9999.

Lemma year4_digits (a b c e : char) :
  isdecimal a = true -> isdecimal b = true ->
  isdecimal c = true -> isdecimal e = true -> year4 [a; b; c; e].
Proof.
  unfold isdecimal, year4, int_digits, int_acc.
  destruct (to_decimal a) as [va|] eqn:Ea; [|discriminate].
  destruct (to_decimal b) as [vb|] eqn:Eb; [|discriminate].
  destruct (to_decimal c) as [vc|] eqn:Ec; [|discriminate].
  destruct (to_decimal e) as [ve|] eqn:Ee; [|discriminate].
  intros _ _ _ _. eexists. split; [reflexivity|].
  apply to_decimal_bound in Ea, Eb, Ec, Ee. lia.
Qed.

Definition all_year4 (caps : captures) : Prop :=
  forall n t, caps !! n = Some t -> year4 t.

Lemma rmatch_group_d4_year n s caps k res :
  rmatch (Group n d4) s caps k = Some res ->
  exists t s', year4 t /\ k s' (<[n := t]> caps) = Some res.
Proof.
  simpl.
  destruct s as [|a [|b [|c [|e s']]]]; simpl;
    repeat match goal with
           | |- context [if isdecimal ?x then _ else _] =>
             destruct (isdecimal x) eqn:?; simpl
           end; try discriminate.
  intros H. exists [a; b; c; e], s'. split; [apply year4_digits; assumption|].
  replace (S (S (S (S (length s')))) - length s')%nat with 4%nat in H by lia.
  exact H.
Qed.

Lemma rmatch_year4 r :
  digit_groups r ->
  forall s caps k res,
    rmatch r s caps k = Some res ->
    exists s' caps', k s' caps' = Some res /\ (all_year4 caps -> all_year4 caps').
Proof.
  induction r as [|c|c|a IHa b IHb|a IHa b IHb|a IHa|n a IHa|];
    intros Hd s caps k res H; simpl in *.
  - exists s, caps. auto.
  - destruct s as [|x s']; [discriminate|].
    destruct (cls_match c x); [|discriminate]. exists s', caps. auto.
  - revert H. induction s as [|x s' IHs]; intros H.
    + exists [], caps. auto.
    + destruct (cls_match c x); [|exists (x :: s'), caps; auto].
      match type of H with
      | match ?star with _ => _ end = _ => destruct star eqn:E
      end.
      * injection H as ->. apply IHs. reflexivity.
      * exists (x :: s'), caps. auto.
  - destruct Hd as [Ha Hb].
    destruct (IHa Ha _ _ _ _ H) as (s1 & c1 & H1 & N1).
    destruct (IHb Hb _ _ _ _ H1) as (s2 & c2 & H2 & N2).
    exists s2, c2. auto.
  - destruct Hd as [Ha Hb].
    destruct (rmatch a s caps k) eqn:E.
    + injection H as ->. exact (IHa Ha _ _ _ _ E).
    + exact (IHb Hb _ _ _ _ H).
  - destruct (rmatch a s caps k) eqn:E.
    + injection H as ->. exact (IHa Hd _ _ _ _ E).
    + exists s, caps. auto.
  - subst a.
    destruct (rmatch_group_d4_year n s caps k res H) as (t & s' & Ht & Hk).
    exists s', (<[n := t]> caps). split; [exact Hk|].
    intros Hc i u. rewrite lookup_insert.
    case_decide; [intros [= <-]; exact Ht | apply Hc].
  - destruct s as [|x s'].
    + exists [], caps. auto.
    + assert (x = 10%N /\ s' = []) as [-> ->].
      { destruct x as [|p]; [discriminate|].
        repeat (destruct p as [p|p|]; try discriminate).
        destruct s'; [auto|discriminate]. }
      exists [10%N], caps. auto.
Qed.

Lemma re_match_year4 r text mt n y :
  digit_groups r -> re_match r text = Some mt -> group_int mt n = Some y ->
  0 <= y <= 9999.
Proof.
  intros Hd H Hy. unfold re_match in H.
  destruct (rmatch_year4 r Hd _ _ _ _ H) as (s' & c' & [= ->] & N).
  unfold group_int in Hy. destruct (mt !! n) as [t|] eqn:Et; [|discriminate].
  destruct (N ltac:(intros i u; rewrite lookup_empty; discriminate) n t Et)
    as (y' & Hy' & Hb).
  congruence.
Qed.

Lemma resolve_text_year text r y :
  resolve_text text = Some r -> year r = Some y -> 0 <= y <= 9999.
Proof.
  unfold resolve_text.
  destruct (re_match pat_unknown text); [resolved; discriminate|].
  destruct (re_match pat_exact text) as [mt|] eqn:E1.
  { destruct (group_int mt 1) eqn:G; resolved. intros [= <-].
    exact (re_match_year4 _ _ _ _ _ (proj1 pat_exact_groups) E1 G). }
  destruct (re_match pat_exact_euro text) as [mt|] eqn:E2.
  { destruct (group_int mt 1) eqn:G; resolved. intros [= <-].
    exact (re_match_year4 _ _ _ _ _ (proj1 pat_exact_euro_groups) E2 G). }
  destruct (re_match pat_approximate text) as [mt|] eqn:E3.
  { destruct (group_int mt 1) eqn:G; resolved. intros [= <-].
    exact (re_match_year4 _ _ _ _ _ (proj1 pat_approximate_groups) E3 G). }
  destruct (re_match pat_range text) as [mt|] eqn:E4.
  { destruct (group_int mt 1) as [a|] eqn:G1, (group_int mt 2) as [b|] eqn:G2;
      resolved. intros [= <-].
    assert (Ha := re_match_year4 _ _ _ _ _ (proj1 pat_range_groups) E4 G1).
    assert (Hb := re_match_year4 _ _ _ _ _ (proj1 pat_range_groups) E4 G2).
    assert (Hm := midpoint_between a b). lia. }
  destruct (re_search pat_year_in_text text) as [mt|] eqn:E5;
    [|resolved; discriminate].
  destruct (group_int mt 1) as [y'|]; cbn [mbind option_bind]; [|discriminate].
  destruct (Z.leb_spec 1000 y'); destruct (Z.leb_spec y' 2100); cbn [andb];
    resolved; try discriminate.
  intros [= <-]. lia.
Qed.

(** X3.  A year read from a text has at most four digits: it lies between 0
    and 9999, whatever the script of its digits.  (An integer input is
    taken as it comes, with any sign and size.) *)
Theorem resolve_text_year_bounds (s : pystr) (r : ResolvedDate) (y : Z) :
  resolve (DStr s) = Some r -> year r = Some y -> 0 <= y <= 9999.
Proof.
  rewrite resolve_DStr. destruct (strip s).
  - intros [= <-]. discriminate.
  - apply resolve_text_year.
Qed.

Lemma resolve_text_year_bounds_witness : 0 <= 1915 <= 9999.
Proof.
  apply (resolve_text_year_bounds (py "١٩١٠..١٩٢٠")
           (mkResolvedDate (Some 1915) (py "١٩١٠..١٩٢٠") true
                           (Some 1910) (Some 1920) "range") 1915).
  - vm_compute. reflexivity.
  - reflexivity.
Defined.

End ResolverExtras.

(* ===================================================================== *)
(** * Further properties of the date validators *)
(* ===================================================================== *)

Module ValidatorExtras.
Import PyStr TimeResolver Validators ValidatorFacts.
Local Open Scope Z_scope.

#[local] Opaque py str_of_int fmt.

Ltac report_one :=
  eexists; split; [first [left; reflexivity | right; left; reflexivity
                         | right; right; left; reflexivity] | reflexivity].


#[local] Set Warnings "-clear-no-such-hyp".

Lemma reports_nil l : reports l [] <-> False.
Proof. split; [intros (r & [] & _) | intros []]. Qed.

Lemma reports_snoc_if l (c : bool) rs x :
  reports l (if c then rs ++ [x] else rs) <-> reports l rs \/ (c = true /\ level x = l).
Proof.
  unfold reports. destruct c.
  - split.
    + intros (r & Hin & Hl). apply in_app_or in Hin. destruct Hin as [Hin|[<-|[]]].
      * left. eauto.
      * right. auto.
    + intros [(r & Hin & Hl)|[_ Hl]].
      * exists r. split; [apply in_or_app; left; exact Hin | exact Hl].
      * exists x. split; [apply in_or_app; right; left; reflexivity | exact Hl].
  - split; [intros H; left; exact H | intros [H|[[=] _]]; exact H].
Qed.


End ValidatorExtras.
